

(** * The three-component self-consistent model driver

    A shallow embedding of [pytests/example_self_consistent_model3.py]: the
    driver that builds a disk-bulge-halo model with [agama.SelfConsistentModel].

    The driver is a straight-line Python script that calls into the [agama]
    extension module, [numpy] and the file system.  It is embedded as a program
    in a small state-and-exception monad.  The state holds the Python object
    store (objects have identity, the model and its components are mutated in
    place), the files written so far, and the history of effects.  Numbers and
    arrays computed by the collaborators are kept symbolic: no branch of the
    driver looks at them. *)

From stdpp Require Import base option list gmap strings.
From Stdlib Require Import ZArith DecimalString DecimalNat.

Open Scope string_scope.
Open Scope list_scope.

(** ** Python values and agama objects *)

(** Identity of an object in the store. *)
Abbreviation oid := nat.

(** A group of the INI file, [dict(ini.items(name))]. *)
Abbreviation dict := (gmap string string).

(** Values passed to and returned by calls.  Results of collaborator calls
    and of numpy arithmetic are symbolic terms [VCall f args]. *)
Inductive value :=
| VInt (z : Z)
| VFloat (literal : string)
| VStr (s : string)
| VBool (b : bool)
| VObj (o : oid)
| VItem (d : dict) (k : string)
| VKw (k : string) (v : value)
| VCall (f : string) (args : list value).

(** [agama.Density]: built from a parameter group, or computed inside
    [iterate] by integrating a DF over velocities in a potential. *)
Inductive density :=
| DensityParams (kw : dict)
| DensityOfDF (df pot : oid) (disklike : bool) (kw : dict).

(** [agama.Potential]: solved from a list of densities by the model, or
    a Multipole expansion of another object's density. *)
Inductive potential :=
| PotSolved (densities : list oid) (kw : dict)
| PotMultipole (dens : oid) (lmax gridsizer : Z) (rmin rmax : string).

(** [agama.DistributionFunction]. *)
Inductive distribution_function :=
| DFParams (pot : oid) (kw : dict)
| DFPseudoIsotropic (pot dens : oid).

(** [agama.Component]: [density=] makes it static, [df=] makes it DF-based;
    a DF-based component keeps the density computed by the last iteration. *)
Record component := Component {
  comp_density : option oid;
  comp_df : option oid;
  comp_disklike : bool;
  comp_kw : dict
}.

(** [agama.SelfConsistentModel]. *)
Record scm := SCM {
  components : list oid;
  scm_potential : option oid;
  scm_af : option oid;
  scm_kw : dict
}.

Inductive obj :=
| ODensity (d : density)
| OPotential (p : potential)
| ODF (f : distribution_function)
| OComponent (c : component)
| OModel (m : scm)
| OGalaxyModel (pot df af : oid)
| OActionFinder (pot : oid).

Inductive representation := StaticDensity | DFBased.

Definition representation_of (c : component) : representation :=
  match comp_df c with Some _ => DFBased | None => StaticDensity end.

(** ** Effects *)

(** What a file holds. *)
Inductive content :=
| Exported (o : oid)
| Table (data : value) (fmt header : string)
| Snapshot (particles : value) (format : string).

(** A call that can raise. *)
Inductive call :=
| Construct (o : obj)
| GetItem (d : dict) (k : string)
| Invoke (f : string) (args : list value).

Inductive error :=
| Raised (c : call)
| SolveError
| NoSectionError (section : string)
| IndexError (i : nat)
| TypeError (what : string).

Inductive event :=
| EvNew (id : oid) (o : obj)
| EvAppend (c : oid)
| EvSetItem (i : nat) (c : oid)
| EvIterateBegin (comps : list (oid * component))
| EvIterateEnd (p : oid)
| EvWrite (filename : string) (c : content)
| EvPrint (items : list value)
| EvEnter (fn : string) (arg : value)
| EvReturn (fn : string).

Record state := State {
  heap : list obj;
  files : gmap string content;
  trace : list event
}.

Definition initial : state := State [] ∅ [].

Definition log (e : event) (s : state) : state :=
  State (heap s) (files s) (trace s ++ [e]).

(** ** The monad: state, and exceptions that keep the state *)

Definition M (A : Type) : Type := state → state * (error + A).

Definition ret {A} (a : A) : M A := λ s, (s, inr a).

Definition bind {A B} (k : A → M B) (m : M A) : M B :=
  λ s, match m s with
       | (s1, inr a) => k a s1
       | (s1, inl e) => (s1, inl e)
       end.

Definition raise {A} (e : error) : M A := λ s, (s, inl e).

(** [x ← m; k] and [m;; k] are stdpp's notations for [bind]. *)
#[global] Instance M_ret : MRet M := @ret.
#[global] Instance M_bind : MBind M := @bind.

Definition emit (e : event) : M unit := λ s, (log e s, inr tt).

(** [for x in xs: body x] *)
Fixpoint for_in {A} (xs : list A) (body : A → M unit) : M unit :=
  match xs with
  | [] => ret tt
  | x :: xs' => body x;; for_in xs' body
  end.

Definition range (n : nat) : list nat := seq 0 n.

(** [str(n)] for a non-negative integer. *)
Definition str (n : nat) : string := NilEmpty.string_of_uint (Nat.to_uint n).

(** The components a list of references denotes in a state. *)
Definition seen (s : state) (cs : list oid) : list (oid * component) :=
  omap (λ c, match heap s !! c with
             | Some (OComponent r) => Some (c, r)
             | _ => None
             end) cs.

Section Driver.

(** Whether a call raises, given the state it is made in.  Every run below
    is parameterised by it: collaborator failures, a keyword given twice,
    a missing dictionary key and an unparsable float are all calls that raise. *)
Variable raises : state → call → bool.

Definition attempt (c : call) (e : error) : M unit :=
  λ s, if raises s c then (s, inl e) else (s, inr tt).

Definition alloc (o : obj) : M oid :=
  λ s, let id := length (heap s) in
       (State (heap s ++ [o]) (files s) (trace s ++ [EvNew id o]), inr id).

(** A constructor call: raises, or returns a fresh object. *)
Definition new (o : obj) : M oid :=
  attempt (Construct o) (Raised (Construct o));; alloc o.

(** A call [f(args)] whose result is a number or an array. *)
Definition invoke (f : string) (args : list value) : M value :=
  attempt (Invoke f args) (Raised (Invoke f args));; ret (VCall f args).

Definition getitem (d : dict) (k : string) : M value :=
  attempt (GetItem d k) (Raised (GetItem d k));; ret (VItem d k).

Definition load (o : oid) : M obj :=
  λ s, match heap s !! o with
       | Some x => (s, inr x)
       | None => (s, inl (TypeError "dangling reference"))
       end.

Definition store (o : oid) (x : obj) : M unit :=
  λ s, (State (<[o := x]> (heap s)) (files s) (trace s), inr tt).

Definition write (filename : string) (c : content) : M unit :=
  λ s, (State (heap s) (<[filename := c]> (files s))
              (trace s ++ [EvWrite filename c]), inr tt).

Definition load_model (m : oid) : M scm :=
  x ← load m;
  match x with OModel r => ret r | _ => raise (TypeError "SelfConsistentModel") end.

Definition load_component (c : oid) : M component :=
  x ← load c;
  match x with OComponent r => ret r | _ => raise (TypeError "Component") end.

(** *** The agama interface used by the driver

    The extension module itself is not part of the driver: its constructors
    are modelled as allocations of the object they describe, its queries as
    symbolic results. *)

(** Modelled from the spec: [agama.SelfConsistentModel] called with [**kw], a model with
    no component and no potential yet. *)
Definition agama_SelfConsistentModel (kw : dict) : M oid :=
  new (OModel (SCM [] None None kw)).

(** Modelled from the spec: [agama.Density] called with [**kw], a static density field. *)
Definition agama_Density (kw : dict) : M oid :=
  new (ODensity (DensityParams kw)).

(** Modelled from the spec: [agama.Component(density=d, disklike=b)], a
    component with a fixed density field. *)
Definition agama_Component (d : oid) (disklike : bool) : M oid :=
  new (OComponent (Component (Some d) None disklike ∅)).

(** Modelled from the spec: [agama.Component(df=f, disklike=b, **kw)], a
    component with a DF; it has no density before an iteration computes one. *)
Definition agama_Component_df (f : oid) (disklike : bool) (kw : dict) : M oid :=
  new (OComponent (Component None (Some f) disklike kw)).

(** Modelled from the spec: [agama.DistributionFunction(potential=p, **kw)],
    a directly parameterised DF. *)
Definition agama_DistributionFunction (p : oid) (kw : dict) : M oid :=
  new (ODF (DFParams p kw)).

(** Modelled from the spec:
    [agama.DistributionFunction(type='PseudoIsotropic', potential=p, density=d)],
    the DF derived by Eddington inversion from a density and a potential. *)
Definition agama_DistributionFunction_PseudoIsotropic (p d : oid) : M oid :=
  new (ODF (DFPseudoIsotropic p d)).

(** Modelled from the spec:
    [agama.Potential(type='Multipole', density=d, lmax=, gridsizer=, rmin=, rmax=)],
    the multipole expansion of the density of [d] up to order [lmax]. *)
Definition agama_Potential_Multipole (d : oid) (lmax gridsizer : Z) (rmin rmax : string)
  : M oid :=
  new (OPotential (PotMultipole d lmax gridsizer rmin rmax)).

(** Modelled from the spec: [agama.GalaxyModel(potential=p, df=f, af=af)]. *)
Definition agama_GalaxyModel (p f af : oid) : M oid :=
  new (OGalaxyModel p f af).

(** [model.components.append(c)] *)
Definition components_append (m c : oid) : M unit :=
  r ← load_model m;
  store m (OModel (SCM (components r ++ [c]) (scm_potential r) (scm_af r) (scm_kw r)));;
  emit (EvAppend c).

(** [model.components[i]] *)
Definition components_get (m : oid) (i : nat) : M oid :=
  r ← load_model m;
  match components r !! i with
  | Some c => ret c
  | None => raise (IndexError i)
  end.

(** [model.components[i] = c] *)
Definition components_set (m : oid) (i : nat) (c : oid) : M unit :=
  r ← load_model m;
  if decide (i < length (components r)) then
    store m (OModel (SCM (<[i := c]> (components r)) (scm_potential r) (scm_af r)
                         (scm_kw r)));;
    emit (EvSetItem i c)
  else raise (IndexError i).

(** [model.potential]; a model that has no potential yet holds [None],
    on which every use the driver makes of it raises. *)
Definition model_potential (m : oid) : M oid :=
  r ← load_model m;
  match scm_potential r with
  | Some p => ret p
  | None => raise (TypeError "potential is None")
  end.

(** [model.af] *)
Definition model_af (m : oid) : M oid :=
  r ← load_model m;
  match scm_af r with
  | Some a => ret a
  | None => raise (TypeError "af is None")
  end.

(** [component.getDensity()] *)
Definition getDensity (c : oid) : M oid :=
  r ← load_component c;
  match comp_density r with
  | Some d => ret d
  | None => raise (TypeError "density is None")
  end.

(** [o.export(filename)] for a density or a potential. *)
Definition export (o : oid) (filename : string) : M unit :=
  attempt (Invoke "export" [VObj o; VStr filename])
          (Raised (Invoke "export" [VObj o; VStr filename]));;
  write filename (Exported o).

(** [numpy.savetxt(filename, data, fmt=, header=)] *)
Definition numpy_savetxt (filename : string) (data : value) (fmt header : string) : M unit :=
  attempt (Invoke "numpy.savetxt" [VStr filename; data])
          (Raised (Invoke "numpy.savetxt" [VStr filename; data]));;
  write filename (Table data fmt header).

(** [agama.writeSnapshot(filename, particles, format)] *)
Definition agama_writeSnapshot (filename : string) (particles : value) (format : string)
  : M unit :=
  attempt (Invoke "agama.writeSnapshot" [VStr filename; particles; VStr format])
          (Raised (Invoke "agama.writeSnapshot" [VStr filename; particles; VStr format]));;
  write filename (Snapshot particles format).

Definition print (items : list value) : M unit := emit (EvPrint items).

(** Modelled from the spec: [SelfConsistentModel.iterate] is part of the
    agama extension module, which the driver only calls.  Following the
    iterate() contract: each component, in list order, contributes its
    density (a static component its own density, a DF-based one the density
    integrated from its DF in the potential as of the start of the call, kept
    in the component in place); the contributions are handed to the potential
    solver; the potential it returns is stored as the model's potential.  A
    solver failure is a [SolveError]. *)
Definition density_contribution (kw : dict) (pot : option oid) (c : oid) : M oid :=
  r ← load_component c;
  match comp_df r with
  | None =>
      match comp_density r with
      | Some d => ret d
      | None => raise (TypeError "component without density or df")
      end
  | Some f =>
      match pot with
      | None => raise (TypeError "potential is None")
      | Some p =>
          let d := ODensity (DensityOfDF f p (comp_disklike r) (comp_kw r)) in
          id ← new d;
          store c (OComponent (Component (Some id) (comp_df r) (comp_disklike r)
                                         (comp_kw r)));;
          ret id
      end
  end.

(** Modelled from the spec: the contributions of all components, in the
    order of the list. *)
Fixpoint contributions (kw : dict) (pot : option oid) (cs : list oid)
  : M (list oid) :=
  match cs with
  | [] => ret []
  | c :: cs' =>
      d ← density_contribution kw pot c;
      ds ← contributions kw pot cs';
      ret (d :: ds)
  end.

(** The components as they are when [iterate()] is called, for the history. *)
Definition snapshot (cs : list oid) : M (list (oid * component)) :=
  λ s, (s, inr (seen s cs)).

(** Modelled from the spec: the contributions go to the potential solver;
    if it raises, that is a [SolveError] and nothing is stored; otherwise the
    new potential and the action finder for it become the model's. *)
Definition publish (m : oid) (ds : list oid) : M unit :=
  r ← load_model m;
  let p := OPotential (PotSolved ds (scm_kw r)) in
  attempt (Construct p) SolveError;;
  pid ← alloc p;
  aid ← new (OActionFinder pid);
  store m (OModel (SCM (components r) (Some pid) (Some aid) (scm_kw r)));;
  emit (EvIterateEnd pid).

(** Modelled from the spec: [model.iterate()], one sweep over the
    components followed by one solve. *)
Definition iterate (m : oid) : M unit :=
  r ← load_model m;
  cs ← snapshot (components r);
  emit (EvIterateBegin cs);;
  ds ← contributions (scm_kw r) (scm_potential r) (components r);
  publish m ds.

(** *** numpy and Python arithmetic on symbolic values *)

Definition vstack (rows : list value) : value := VCall "numpy.vstack" rows.

Definition column_stack (cols : list value) : value := VCall "numpy.column_stack" cols.

Definition transpose (a : value) : value := VCall ".T" [a].

Definition column (a : value) (j : Z) : value := VCall "[:,j]" [a; VInt j].

Definition item (a : value) (j : Z) : value := VCall "[j]" [a; VInt j].

Definition neg (a : value) : value := VCall "neg" [a].

Definition mul (a b : value) : value := VCall "*" [a; b].

Definition div (a b : value) : value := VCall "/" [a; b].

Definition sub (a b : value) : value := VCall "-" [a; b].

Definition pow (a b : value) : value := VCall "**" [a; b].

Definition sqrt (a : value) : value := VCall "numpy.sqrt" [a].

Definition logspace (a b n : value) : value := VCall "numpy.logspace" [a; b; n].

(** [fmt % args] *)
Definition interpolate (fmt : string) (args : list value) : value :=
  VCall "%" (VStr fmt :: args).

(** ** The driver *)

(** [writeRotationCurve], lines 20-24. *)
Definition writeRotationCurve (filename : string) (potential : oid) : M unit :=
  export potential filename;;
  let radii := logspace (VInt (-2)) (VFloat "1.5") (VInt 71) in
  force ← invoke "force"
            [VObj potential;
             transpose (vstack [radii; mul radii (VInt 0); mul radii (VInt 0)])];
  let vcirc := pow (mul (neg (column force 0)) radii) (VFloat "0.5") in
  numpy_savetxt filename (transpose (vstack [radii; vcirc])) "%.6g" "radius\tv_circ".

(** [printoutInfo], lines 27-48. *)
Definition printoutInfo (model : oid) (iteration : nat) : M unit :=
  emit (EvEnter "printoutInfo" (VInt (Z.of_nat iteration)));;
  c0 ← components_get model 0; densDisk ← getDensity c0;
  c1 ← components_get model 1; densBulge ← getDensity c1;
  c2 ← components_get model 2; densHalo ← getDensity c2;
  m ← invoke "totalMass" [VObj densDisk];
  r1 ← invoke "density" [VObj densDisk; VInt 2; VInt 0; VInt 0];
  r2 ← invoke "density" [VObj densDisk; VInt 2; VInt 0; VFloat "0.25"];
  print [interpolate "Disk  total mass=%g," [m];
         interpolate "rho(R=2,z=0)=%g, rho(R=2,z=0.25)=%g" [r1; r2]];;
  m ← invoke "totalMass" [VObj densBulge];
  r1 ← invoke "density" [VObj densBulge; VFloat "0.4"; VInt 0; VInt 0];
  print [interpolate "Bulge total mass=%g," [m];
         interpolate "rho(R=0.4,z=0)=%g" [r1]];;
  m ← invoke "totalMass" [VObj densHalo];
  r1 ← invoke "density" [VObj densHalo; VInt 2; VInt 0; VInt 0];
  r2 ← invoke "density" [VObj densHalo; VInt 0; VInt 0; VInt 2];
  print [interpolate "Halo  total mass=%g," [m];
         interpolate "rho(R=2,z=0)=%g, rho(R=0,z=2)=%g" [r1; r2]];;
  pot ← model_potential model;
  phi0 ← invoke "potential" [VObj pot; VInt 0; VInt 0; VInt 0];
  pot ← model_potential model;
  m ← invoke "totalMass" [VObj pot];
  print [interpolate "Potential at origin=-(%g)^2," [pow (neg phi0) (VFloat "0.5")];
         interpolate "total mass=%g" [m]];;
  export densDisk ("dens_disk_iter" +:+ str iteration);;
  export densBulge ("dens_bulge_iter" +:+ str iteration);;
  export densHalo ("dens_halo_iter" +:+ str iteration);;
  pot ← model_potential model;
  writeRotationCurve ("rotcurve_iter" +:+ str iteration) pot;;
  emit (EvReturn "printoutInfo").

(** [dict(ini.items(section))] on the parsed INI file; a file that could
    not be read parses to no section at all. *)
Definition items (ini : gmap string dict) (section : string) : M dict :=
  match ini !! section with
  | Some d => ret d
  | None => raise (NoSectionError section)
  end.

(** [float(d[k])] *)
Definition float_item (d : dict) (k : string) : M value :=
  v ← getitem d k; invoke "float" [v].

(** The script body, lines 50-147. *)
Definition main (ini : gmap string dict) : M unit :=
  (* read parameters from the INI file *)
  iniPotenHalo ← items ini "Potential halo";
  iniPotenBulge ← items ini "Potential bulge";
  iniPotenDisk ← items ini "Potential disk";
  iniDFDisk ← items ini "DF disk";
  iniSCMHalo ← items ini "SelfConsistentModel halo";
  iniSCMBulge ← items ini "SelfConsistentModel bulge";
  iniSCMDisk ← items ini "SelfConsistentModel disk";
  iniSCM ← items ini "SelfConsistentModel";
  (* initialize the SelfConsistentModel object *)
  model ← agama_SelfConsistentModel iniSCM;
  (* create initial density profiles of all components *)
  densityDisk ← agama_Density iniPotenDisk;
  densityBulge ← agama_Density iniPotenBulge;
  densityHalo ← agama_Density iniPotenHalo;
  (* add components to SCM - at first, all of them are static density profiles *)
  c ← agama_Component densityDisk true; components_append model c;;
  c ← agama_Component densityBulge false; components_append model c;;
  c ← agama_Component densityHalo false; components_append model c;;
  (* compute the initial potential *)
  iterate model;;
  pot ← model_potential model;
  writeRotationCurve "rotcurve_init" pot;;
  (* construct the DF of the disk component, using the initial potential *)
  pot ← model_potential model;
  dfDisk ← agama_DistributionFunction pot iniDFDisk;
  (* initialize the DFs of spheroidal components using the Eddington inversion *)
  pot ← model_potential model;
  pot_sph ← agama_Potential_Multipole pot 0 100 "1e-3" "1e3";
  dfBulge ← agama_DistributionFunction_PseudoIsotropic pot_sph densityBulge;
  dfHalo ← agama_DistributionFunction_PseudoIsotropic pot_sph densityHalo;
  mdisk ← invoke "totalMass" [VObj dfDisk];
  mbulge ← invoke "totalMass" [VObj dfBulge];
  mhalo ← invoke "totalMass" [VObj dfHalo];
  print [VStr "\033[1;33m**** STARTING ITERATIVE MODELLING ****\033[0m\nMasses (computed from DF): ";
         interpolate "Mdisk=%g," [mdisk]; interpolate "Mbulge=%g," [mbulge];
         interpolate "Mhalo=%g" [mhalo]];;
  printoutInfo model 0;;
  (* replace the initially static SCM components with the DF-based ones *)
  c ← agama_Component_df dfDisk true iniSCMDisk; components_set model 0 c;;
  c ← agama_Component_df dfBulge false iniSCMBulge; components_set model 1 c;;
  c ← agama_Component_df dfHalo false iniSCMHalo; components_set model 2 c;;
  (* do a few more iterations *)
  for_in (range 6) (λ iteration,
    print [interpolate "\033[1;37mStarting iteration #%d\033[0m" [VInt (Z.of_nat iteration)]];;
    iterate model;;
    printoutInfo model iteration);;
  print [VStr "\033[1;33mComputing disk density and velocity profiles\033[0m"];;
  (* take only the disk component *)
  pot ← model_potential model;
  af ← model_af model;
  modelDisk ← agama_GalaxyModel pot dfDisk af;
  Rdisk ← float_item iniPotenDisk "scaleradius";
  Hdisk ← float_item iniPotenDisk "scaleheight";
  R ← invoke "agama.nonuniformGrid"
        [VInt 48; mul (VFloat "0.01") Rdisk; mul (VFloat "10.0") Rdisk];
  let xyz := column_stack [R; mul R (VInt 0); mul R (VInt 0)] in
  pm ← invoke "projectedMoments" [VObj modelDisk; R];
  let Sigma := item pm 0 in
  mo ← invoke "moments" [VObj modelDisk; xyz; VKw "vel" (VBool true)];
  let rho := item mo 0 in
  let vmean := item mo 1 in
  let sigma := item mo 2 in
  pot ← model_potential model;
  fd ← invoke "forceDeriv" [VObj pot; xyz];
  let force := item fd 0 in
  let deriv := item fd 1 in
  let kappa := sqrt (sub (neg (column deriv 0))
                         (div (mul (VInt 3) (column force 0)) R)) in
  let ToomreQ := div (div (mul (pow (column sigma 0) (VFloat "0.5")) kappa)
                          (VFloat "3.36")) Sigma in
  numpy_savetxt "disk_plane"
    (transpose (vstack
       [R; Sigma; rho; pow (column sigma 0) (VFloat "0.5");
        pow (column sigma 1) (VFloat "0.5");
        pow (sub (column sigma 2) (pow (column vmean 2) (VInt 2))) (VFloat "0.5");
        column vmean 2; pow (mul (neg R) (column force 0)) (VFloat "0.5"); ToomreQ]))
    "%.6g" "R Sigma rho(R,z=0) sigma_R sigma_z sigma_phi v_phi,mean v_circ ToomreQ";;
  (* export model to an N-body snapshot *)
  print [VStr "\033[1;33mCreating an N-body representation of the model\033[0m"];;
  let format := "text" in
  (* first create a representation of density profiles without velocities *)
  print [VStr "Sampling disk density"];;
  c ← components_get model 0; d ← getDensity c;
  particles ← invoke "sample" [VObj d; VInt 160000];
  agama_writeSnapshot "dens_disk_final" particles format;;
  print [VStr "Sampling bulge density"];;
  c ← components_get model 1; d ← getDensity c;
  particles ← invoke "sample" [VObj d; VInt 40000];
  agama_writeSnapshot "dens_bulge_final" particles format;;
  print [VStr "Sampling halo density"];;
  c ← components_get model 2; d ← getDensity c;
  particles ← invoke "sample" [VObj d; VInt 800000];
  agama_writeSnapshot "dens_halo_final" particles format;;
  (* now create genuinely self-consistent models of both components *)
  print [VStr "Sampling disk DF"];;
  pot ← model_potential model; af ← model_af model;
  gm ← agama_GalaxyModel pot dfDisk af;
  particles ← invoke "sample" [VObj gm; VInt 160000];
  agama_writeSnapshot "model_disk_final" particles format;;
  print [VStr "Sampling bulge DF"];;
  pot ← model_potential model; af ← model_af model;
  gm ← agama_GalaxyModel pot dfBulge af;
  particles ← invoke "sample" [VObj gm; VInt 40000];
  agama_writeSnapshot "model_bulge_final" particles format;;
  print [VStr "Sampling halo DF"];;
  pot ← model_potential model; af ← model_af model;
  gm ← agama_GalaxyModel pot dfHalo af;
  particles ← invoke "sample" [VObj gm; VInt 800000];
  agama_writeSnapshot "model_halo_final" particles format.

End Driver.

(** ** Instances of the parameter *)

(** No call raises. *)
Definition never : state → call → bool := λ _ _, false.

(** The failures that Python itself decides: a keyword passed both
    explicitly and through [**kw], and a key missing from a dictionary.
    On top of them the collaborators fail as [collab] says. *)
Definition has_key (d : dict) (k : string) : bool := bool_decide (is_Some (d !! k)).

Definition duplicate_keyword (o : obj) : bool :=
  match o with
  | ODF (DFParams _ kw) => has_key kw "potential"
  | OComponent (Component _ (Some _) _ kw) => has_key kw "df" || has_key kw "disklike"
  | _ => false
  end.

Definition python_raises (collab : state → call → bool) : state → call → bool :=
  λ s c,
    match c with
    | Construct o => duplicate_keyword o || collab s c
    | GetItem d k => negb (has_key d k)
    | Invoke _ _ => collab s c
    end.

(** ** Observations on a history *)

(** The components seen by each [iterate()] call. *)
Definition iterate_calls (tr : list event) : list (list (oid * component)) :=
  omap (λ e, match e with EvIterateBegin cs => Some cs | _ => None end) tr.

(** The potentials published, in order. *)
Definition published (tr : list event) : list oid :=
  omap (λ e, match e with EvIterateEnd p => Some p | _ => None end) tr.

(** The distribution functions constructed, in order. *)
Definition constructed_dfs (tr : list event) : list (oid * distribution_function) :=
  omap (λ e, match e with EvNew id (ODF f) => Some (id, f) | _ => None end) tr.

(** The densities integrated from a DF, in order. *)
Definition integrated_densities (tr : list event) : list density :=
  omap (λ e, match e with
             | EvNew _ (ODensity (DensityOfDF f p b kw)) => Some (DensityOfDF f p b kw)
             | _ => None
             end) tr.

(** The [GalaxyModel]s constructed, as (potential, df, af). *)
Definition galaxy_models (tr : list event) : list (oid * oid * oid) :=
  omap (λ e, match e with EvNew _ (OGalaxyModel p f a) => Some (p, f, a) | _ => None end) tr.

(** What was written to [filename], in order. *)
Definition writes_to (filename : string) (tr : list event) : list content :=
  omap (λ e, match e with
             | EvWrite f c => if decide (f = filename) then Some c else None
             | _ => None
             end) tr.

(** The model-level steps of a history: iterations, slot assignments and
    diagnostic printouts. *)
Inductive step :=
| IterateCall
| IterateReturn
| Append
| Replace (i : nat)
| Printout (iteration : Z).

Definition steps (tr : list event) : list step :=
  omap (λ e, match e with
             | EvIterateBegin _ => Some IterateCall
             | EvIterateEnd _ => Some IterateReturn
             | EvAppend _ => Some Append
             | EvSetItem i _ => Some (Replace i)
             | EvEnter "printoutInfo" (VInt k) => Some (Printout k)
             | _ => None
             end) tr.

(** [model.components] after each change made to the list. *)
Fixpoint components_history (cs : list oid) (tr : list event) : list (list oid) :=
  match tr with
  | [] => []
  | EvAppend c :: tr' => (cs ++ [c]) :: components_history (cs ++ [c]) tr'
  | EvSetItem i c :: tr' => <[i := c]> cs :: components_history (<[i := c]> cs) tr'
  | _ :: tr' => components_history cs tr'
  end.


(** The files written during each [printoutInfo] call, with its argument. *)
Fixpoint printouts (current : option (value * list string)) (tr : list event)
  : list (value * list string) :=
  match tr with
  | [] => []
  | EvEnter "printoutInfo" k :: tr' => printouts (Some (k, [])) tr'
  | EvReturn "printoutInfo" :: tr' =>
      match current with
      | Some r => r :: printouts None tr'
      | None => printouts None tr'
      end
  | EvWrite f _ :: tr' =>
      match current with
      | Some (k, fs) => printouts (Some (k, fs ++ [f])) tr'
      | None => printouts None tr'
      end
  | _ :: tr' => printouts current tr'
  end.

(** The current component list and potential of model [m]. *)
Definition model_of (s : state) (m : oid) : option scm :=
  match heap s !! m with Some (OModel r) => Some r | _ => None end.

Definition component_of (s : state) (c : oid) : option component :=
  match heap s !! c with Some (OComponent r) => Some r | _ => None end.

(** The model-level steps without the diagnostic printouts. *)
Definition model_steps (tr : list event) : list step :=
  List.filter (λ st, match st with Printout _ => false | _ => true end) (steps tr).


Definition static_component (s : state) (c d : oid) (disklike : bool) : Prop :=
  component_of s c = Some (Component (Some d) None disklike ∅).

Definition df_component (s : state) (c f : oid) (disklike : bool) (kw : dict) : Prop :=
  ∃ d, component_of s c = Some (Component d (Some f) disklike kw).

Definition is_list_change (st : step) : bool :=
  match st with Append | Replace _ => true | _ => false end.

(** Potentials published and DFs and Multipole potentials built, in order. *)
Inductive built :=
| Published (p : oid)
| BuiltDF (f : oid)
| BuiltMultipole (p : oid).

Definition construction_order (tr : list event) : list built :=
  omap (λ e, match e with
             | EvIterateEnd p => Some (Published p)
             | EvNew f (ODF _) => Some (BuiltDF f)
             | EvNew q (OPotential (PotMultipole _ _ _ _ _)) => Some (BuiltMultipole q)
             | _ => None
             end) tr.

(** The table [writeRotationCurve] saves for a potential. *)
Definition rotation_curve (potential : oid) : content :=
  let radii := logspace (VInt (-2)) (VFloat "1.5") (VInt 71) in
  let force :=
    VCall "force"
      [VObj potential;
       transpose (vstack [radii; mul radii (VInt 0); mul radii (VInt 0)])] in
  Table (transpose (vstack [radii; pow (mul (neg (column force 0)) radii) (VFloat "0.5")]))
        "%.6g" "radius\tv_circ".

Definition iter0_files : list string :=
  ["dens_disk_iter0"; "dens_bulge_iter0"; "dens_halo_iter0"; "rotcurve_iter0"].

(** In how many [printoutInfo] calls of a history a file is written. *)
Definition printouts_writing (filename : string) (tr : list event) : nat :=
  length (List.filter (λ r, bool_decide (filename ∈ r.2)) (printouts None tr)).

Definition potential_of (s : state) (m : oid) : option oid :=
  model_of s m ≫= scm_potential.

(** ** Configurations and the states used below *)

(** The eight parameter groups the driver reads. *)
Record parameters := Parameters {
  iniPotenHalo : dict;
  iniPotenBulge : dict;
  iniPotenDisk : dict;
  iniDFDisk : dict;
  iniSCMHalo : dict;
  iniSCMBulge : dict;
  iniSCMDisk : dict;
  iniSCM : dict
}.

Definition parsed (p : parameters) : gmap string dict :=
  list_to_map
    [("Potential halo", iniPotenHalo p);
     ("Potential bulge", iniPotenBulge p);
     ("Potential disk", iniPotenDisk p);
     ("DF disk", iniDFDisk p);
     ("SelfConsistentModel halo", iniSCMHalo p);
     ("SelfConsistentModel bulge", iniSCMBulge p);
     ("SelfConsistentModel disk", iniSCMDisk p);
     ("SelfConsistentModel", iniSCM p)].

Definition reads (ini : gmap string dict) (p : parameters) : Prop :=
  ini !! "Potential halo" = Some (iniPotenHalo p) ∧
  ini !! "Potential bulge" = Some (iniPotenBulge p) ∧
  ini !! "Potential disk" = Some (iniPotenDisk p) ∧
  ini !! "DF disk" = Some (iniDFDisk p) ∧
  ini !! "SelfConsistentModel halo" = Some (iniSCMHalo p) ∧
  ini !! "SelfConsistentModel bulge" = Some (iniSCMBulge p) ∧
  ini !! "SelfConsistentModel disk" = Some (iniSCMDisk p) ∧
  ini !! "SelfConsistentModel" = Some (iniSCM p).

(** The state in which the driver ends when nothing raises. *)
Definition completed (p : parameters) : state := fst (main never (parsed p) initial).

(** The same state, evaluated once and for all. *)
Definition completed_state (d1 d2 d3 d4 d5 d6 d7 d8 : dict) : state :=
  Eval vm_compute in completed (Parameters d1 d2 d3 d4 d5 d6 d7 d8).

(** A configuration with the eight groups, and the run on it. *)
Definition params0 : parameters :=
  Parameters {["type" := "Spheroid"]} {["type" := "Sersic"]}
             {["type" := "Disk"; "scaleradius" := "3"; "scaleheight" := "0.4"]}
             {["type" := "QuasiIsothermal"]}
             ∅ ∅ ∅ {["lmax" := "6"]}.

Definition ini0 : gmap string dict := parsed params0.

(** A collaborator set in which only the potential solver fails. *)
Definition solver_down : state → call → bool :=
  λ _ c, match c with Construct (OPotential (PotSolved _ _)) => true | _ => false end.

(** A model with one static component and a potential from an earlier
    iteration. *)
Definition iterated_once : state :=
  State [OModel (SCM [2] (Some 3) (Some 4) ∅);
         ODensity (DensityParams ∅);
         OComponent (Component (Some 1) None false ∅);
         OPotential (PotSolved [1] ∅);
         OActionFinder 3]
        ∅ [].

(** ** Relations between runs and between states *)

Definition agrees {A} (m1 m2 : M A) : Prop :=
  ∀ s s' a, m1 s = (s', inr a) → m2 s = (s', inr a).

(** Every object of [s] that is not a component is still in [s'], unchanged. *)
Definition keeps (s s' : state) : Prop :=
  ∀ o x, heap s !! o = Some x → (∀ r, x ≠ OComponent r) → heap s' !! o = Some x.

(** ** Further notions: outcomes of any kind, configurations, outputs *)

(** The eight groups [main] reads, in the order it reads them. *)
Definition sections : list string :=
  ["Potential halo"; "Potential bulge"; "Potential disk"; "DF disk";
   "SelfConsistentModel halo"; "SelfConsistentModel bulge";
   "SelfConsistentModel disk"; "SelfConsistentModel"].

(** The first group of a list that a configuration lacks. *)
Fixpoint first_missing (ini : gmap string dict) (names : list string) : option string :=
  match names with
  | [] => None
  | n :: names' =>
      match ini !! n with
      | Some _ => first_missing ini names'
      | None => Some n
      end
  end.

(** A relation that a computation keeps between the state it starts in and
    the state it ends in, whether it returns or raises. *)
Definition always {A} (R : state → state → Prop) (m : M A) : Prop :=
  ∀ s s' r, m s = (s', r) → R s s'.

Class Stable (R : state → state → Prop) := {
  stable_refl : ∀ s, R s s;
  stable_trans : ∀ s1 s2 s3, R s1 s2 → R s2 s3 → R s1 s3
}.

(** Same objects, and the same files outside [F]. *)
Definition only_files (F : list string) (s s' : state) : Prop :=
  heap s' = heap s ∧ ∀ g, g ∉ F → files s' !! g = files s !! g.

(** The files [printoutInfo] writes for an iteration number. *)
Definition printout_files (iteration : nat) : list string :=
  ["dens_disk_iter" +:+ str iteration; "dens_bulge_iter" +:+ str iteration;
   "dens_halo_iter" +:+ str iteration; "rotcurve_iter" +:+ str iteration].

(** The density held by the component in slot [k] of model [m]. *)
Definition slot_density (s : state) (m : oid) (k : nat) : option oid :=
  r ← model_of s m; c ← components r !! k; x ← component_of s c; comp_density x.

(** The files a completed run leaves. *)
Definition output_files : list string :=
  ["rotcurve_init"]
  ++ concat (map printout_files (seq 0 6))
  ++ ["disk_plane"; "dens_disk_final"; "dens_bulge_final"; "dens_halo_final";
      "model_disk_final"; "model_bulge_final"; "model_halo_final"].

(** The files outside [F] are as they were. *)
Definition outside (F : list string) (s s' : state) : Prop :=
  ∀ g, g ∉ F → files s' !! g = files s !! g.

(** Where a density comes from: a static density is itself, an integrated
    one comes from its DF. *)
Definition origin (s : state) (d : oid) : option (oid + oid) :=
  match heap s !! d with
  | Some (ODensity (DensityParams _)) => Some (inl d)
  | Some (ODensity (DensityOfDF f _ _ _)) => Some (inr f)
  | _ => None
  end.

(** For each published potential, the origins of the densities it was
    solved from, in the order they were handed to the solver. *)
Definition solved_from (s : state) : list (list (option (oid + oid))) :=
  map (λ p, match heap s !! p with
            | Some (OPotential (PotSolved ds _)) => map (origin s) ds
            | _ => []
            end) (published (trace s)).

(** The errors that come from a call that raised. *)
Definition from_call (e : error) : bool :=
  match e with
  | Raised _ | SolveError => true
  | _ => false
  end.

(** [m1] ends as [m2] does, unless a call raised. *)
Definition refines {A} (m1 m2 : M A) : Prop :=
  ∀ s s' r, m1 s = (s', r) → m2 s = (s', r) ∨ ∃ e, r = inl e ∧ from_call e = true.

(** Whether a group repeats a keyword that
    [agama.Component(df=, disklike=, **kw)] is given explicitly. *)
Definition repeats_component_keyword (kw : dict) : bool :=
  has_key kw "df" || has_key kw "disklike".

(** The calls whose failure depends on the configuration, as [main] makes
    them on the groups [p]. *)
Definition configured_call (p : parameters) (c : call) : Prop :=
  match c with
  | Construct (ODF (DFParams _ kw)) => kw = iniDFDisk p
  | Construct (OComponent (Component _ (Some _) disklike kw)) =>
      if disklike then kw = iniSCMDisk p
      else kw = iniSCMBulge p ∨ kw = iniSCMHalo p
  | GetItem d k => d = iniPotenDisk p ∧ (k = "scaleradius" ∨ k = "scaleheight")
  | _ => True
  end.

(** The failures that Python decides, with the decisions that depend on
    the configuration taken beforehand; [None] leaves the decision for the
    spheroidal components to [python_raises]. *)
Definition decided (potential disk : bool) (spheroid : option bool)
    (radius height : bool) : state → call → bool :=
  λ s c,
    match c with
    | Construct (ODF (DFParams _ _)) => potential
    | Construct (OComponent (Component _ (Some _) true _)) => disk
    | Construct (OComponent (Component _ (Some _) false kw)) =>
        default (repeats_component_keyword kw) spheroid
    | GetItem _ "scaleradius" => radius
    | GetItem _ "scaleheight" => height
    | _ => python_raises never s c
    end.

(** Two ways of raising that agree on the calls in [P]. *)
Definition same_on (P : call → Prop) (r1 r2 : state → call → bool) : Prop :=
  ∀ s c, P c → r1 s c = r2 s c.

(** Computations with the same outcome in every state. *)
Definition equal {A} (m1 m2 : M A) : Prop := ∀ s, m1 s = m2 s.


(** A model after its bootstrap iteration: three static components and a
    potential. *)
Definition bootstrapped : state :=
  State [OModel (SCM [4; 5; 6] (Some 7) (Some 8) ∅);
         ODensity (DensityParams ∅); ODensity (DensityParams ∅);
         ODensity (DensityParams ∅);
         OComponent (Component (Some 1) None true ∅);
         OComponent (Component (Some 2) None false ∅);
         OComponent (Component (Some 3) None false ∅);
         OPotential (PotSolved [1; 2; 3] ∅);
         OActionFinder 7]
        ∅ [].

(** A collaborator set in which only [potential.force] fails. *)
Definition force_down : state → call → bool :=
  λ _ c, match c with Invoke "force" _ => true | _ => false end.

(** Configurations with a repeated keyword or a missing scale. *)
Definition params_repeated_potential : parameters :=
  Parameters ∅ ∅ {["scaleradius" := "3"; "scaleheight" := "0.4"]}
             {["potential" := "x"]} ∅ ∅ ∅ ∅.

Definition params_repeated_disklike : parameters :=
  Parameters ∅ ∅ {["scaleradius" := "3"; "scaleheight" := "0.4"]}
             ∅ ∅ ∅ {["disklike" := "False"]} ∅.


(** * Properties *)

(** ** Runs that complete agree with the run in which nothing raises *)

Lemma agrees_refl {A} (m : M A) : agrees m m.
Proof. by intros s s' a H. Qed.

Lemma agrees_bind {A B} (m1 m2 : M A) (k1 k2 : A → M B) :
  agrees m1 m2 → (∀ a, agrees (k1 a) (k2 a)) → agrees (m1 ≫= k1) (m2 ≫= k2).
Proof.
  intros Hm Hk s s' b. unfold mbind, M_bind, bind.
  destruct (m1 s) as [s1 [e|a]] eqn:E1; [discriminate|].
  rewrite (Hm _ _ _ E1). apply Hk.
Qed.

Lemma agrees_attempt raises c e : agrees (attempt raises c e) (attempt never c e).
Proof.
  intros s s' a. unfold attempt, never. destruct (raises s c); [discriminate|done].
Qed.

Lemma agrees_for_in {A} (xs : list A) (b1 b2 : A → M unit) :
  (∀ x, agrees (b1 x) (b2 x)) → agrees (for_in xs b1) (for_in xs b2).
Proof.
  intros Hb. induction xs as [|x xs IH]; simpl.
  - apply agrees_refl.
  - apply agrees_bind; [apply Hb | intros _; apply IH].
Qed.

Ltac agree :=
  repeat first
    [ apply agrees_refl
    | apply agrees_attempt
    | match goal with H : context [agrees] |- _ => apply H end
    | apply agrees_bind; [|intros ?]
    | apply agrees_for_in; intros ?
    | match goal with
      | |- agrees (match ?x with _ => _ end) _ => destruct x
      | |- agrees (if ?x then _ else _) _ => destruct x
      end ].

Section Agreement.

Variable raises : state → call → bool.

Lemma agrees_new o : agrees (new raises o) (new never o).
Proof. unfold new. agree. Qed.

Lemma agrees_invoke f args : agrees (invoke raises f args) (invoke never f args).
Proof. unfold invoke. agree. Qed.

Lemma agrees_getitem d k : agrees (getitem raises d k) (getitem never d k).
Proof. unfold getitem. agree. Qed.

Lemma agrees_export o f : agrees (export raises o f) (export never o f).
Proof. unfold export. agree. Qed.

Lemma agrees_savetxt f d fmt h :
  agrees (numpy_savetxt raises f d fmt h) (numpy_savetxt never f d fmt h).
Proof. unfold numpy_savetxt. agree. Qed.

Lemma agrees_writeSnapshot f d fmt :
  agrees (agama_writeSnapshot raises f d fmt) (agama_writeSnapshot never f d fmt).
Proof. unfold agama_writeSnapshot. agree. Qed.

Lemma agrees_density_contribution kw pot c :
  agrees (density_contribution raises kw pot c) (density_contribution never kw pot c).
Proof. unfold density_contribution. pose proof agrees_new. agree. Qed.

Lemma agrees_contributions kw pot cs :
  agrees (contributions raises kw pot cs) (contributions never kw pot cs).
Proof.
  induction cs as [|c cs IH]; simpl; pose proof agrees_density_contribution; agree.
Qed.

Lemma agrees_publish m ds : agrees (publish raises m ds) (publish never m ds).
Proof. unfold publish. pose proof agrees_new. agree. Qed.

Lemma agrees_iterate m : agrees (iterate raises m) (iterate never m).
Proof.
  unfold iterate. pose proof agrees_contributions. pose proof agrees_publish. agree.
Qed.

Lemma agrees_writeRotationCurve f p :
  agrees (writeRotationCurve raises f p) (writeRotationCurve never f p).
Proof.
  unfold writeRotationCurve.
  pose proof agrees_export. pose proof agrees_invoke. pose proof agrees_savetxt. agree.
Qed.

Lemma agrees_printoutInfo m i :
  agrees (printoutInfo raises m i) (printoutInfo never m i).
Proof.
  unfold printoutInfo.
  pose proof agrees_export. pose proof agrees_invoke.
  pose proof agrees_writeRotationCurve. agree.
Qed.

Lemma agrees_main ini : agrees (main raises ini) (main never ini).
Proof.
  unfold main, float_item, agama_SelfConsistentModel, agama_Density, agama_Component,
    agama_Component_df, agama_DistributionFunction,
    agama_DistributionFunction_PseudoIsotropic, agama_Potential_Multipole,
    agama_GalaxyModel.
  pose proof agrees_new. pose proof agrees_invoke. pose proof agrees_getitem.
  pose proof agrees_iterate. pose proof agrees_printoutInfo.
  pose proof agrees_writeRotationCurve. pose proof agrees_savetxt.
  pose proof agrees_writeSnapshot.
  agree.
Qed.

End Agreement.

(** ** Completed runs of the driver *)

Lemma completed_evaluated p :
  completed p =
  completed_state (iniPotenHalo p) (iniPotenBulge p) (iniPotenDisk p) (iniDFDisk p)
                  (iniSCMHalo p) (iniSCMBulge p) (iniSCMDisk p) (iniSCM p).
Proof. destruct p. vm_compute. reflexivity. Qed.

Lemma bind_items ini k (f : dict → M unit) s s' :
  (items ini k ≫= f) s = (s', inr tt) →
  ∃ d, ini !! k = Some d ∧ f d s = (s', inr tt).
Proof.
  unfold mbind, M_bind, bind, items.
  destruct (ini !! k) as [d|]; [|discriminate]. eauto.
Qed.

Lemma main_completes raises ini s' :
  main raises ini initial = (s', inr tt) →
  ∃ p, reads ini p ∧ s' = completed p.
Proof.
  intros H. apply agrees_main in H. unfold main in H.
  apply bind_items in H as (d1 & E1 & H).
  apply bind_items in H as (d2 & E2 & H).
  apply bind_items in H as (d3 & E3 & H).
  apply bind_items in H as (d4 & E4 & H).
  apply bind_items in H as (d5 & E5 & H).
  apply bind_items in H as (d6 & E6 & H).
  apply bind_items in H as (d7 & E7 & H).
  apply bind_items in H as (d8 & E8 & H).
  exists (Parameters d1 d2 d3 d4 d5 d6 d7 d8).
  split; [by repeat split|].
  vm_compute in H. injection H as <-. vm_compute. reflexivity.
Qed.

(** ** The iteration schedule *)

(** C1. In every completed run of the driver, whatever the configuration
    holds and whatever the collaborators return, [iterate()] is called seven
    times: the first call sees three static components, then slots 0, 1 and 2
    are assigned, then six calls follow that each see three DF-based
    components; every call publishes one potential, and nothing but the
    driver's fixed loop bound decides the number of calls. *)
Theorem C1_iteration_schedule raises ini s' :
  main raises ini initial = (s', inr tt) →
  map (map (representation_of ∘ snd)) (iterate_calls (trace s')) =
    [StaticDensity; StaticDensity; StaticDensity]
      :: replicate 6 [DFBased; DFBased; DFBased]
  ∧ model_steps (trace s') =
      [Append; Append; Append; IterateCall; IterateReturn;
       Replace 0; Replace 1; Replace 2]
      ++ concat (replicate 6 [IterateCall; IterateReturn])
  ∧ length (published (trace s')) = 7.
Proof.
  intros H. destruct (main_completes _ _ _ H) as (p & _ & ->).
  rewrite completed_evaluated. destruct p. vm_compute. done.
Qed.

(** A run that returns ends in the completed state. *)
Lemma returns_completed raises p :
  snd (main raises (parsed p) initial) = inr tt →
  main raises (parsed p) initial = (completed p, inr tt).
Proof.
  intros Hr. destruct (main raises (parsed p) initial) as [s r] eqn:E.
  simpl in Hr. subst r.
  unfold completed. by rewrite (agrees_main _ _ _ _ _ E).
Qed.

(** The run on [ini0] completes, with the failures that Python decides. *)
Lemma main_completes_on_ini0 :
  main (python_raises never) ini0 initial = (completed params0, inr tt).
Proof. apply returns_completed. vm_compute. reflexivity. Qed.

Ltac run_completes := exact main_completes_on_ini0.

Lemma C1_iteration_schedule_witness :
  main (python_raises never) ini0 initial = (completed params0, inr tt)
  ∧ map (map (representation_of ∘ snd)) (iterate_calls (trace (completed params0))) =
      [StaticDensity; StaticDensity; StaticDensity]
        :: replicate 6 [DFBased; DFBased; DFBased]
  ∧ model_steps (trace (completed params0)) =
      [Append; Append; Append; IterateCall; IterateReturn;
       Replace 0; Replace 1; Replace 2]
      ++ concat (replicate 6 [IterateCall; IterateReturn])
  ∧ length (published (trace (completed params0))) = 7.
Proof.
  split; [run_completes|].
  apply (C1_iteration_schedule (python_raises never) ini0).
  run_completes.
Defined.

(** ** Replacement of components *)



(** ** The component list *)

(** C4. In every completed run the component list is built by three
    appends (disk, bulge, halo, in this order) and from then on always has
    three slots: slot 0 holds the static disk component and later the
    DF-based disk component, both disk-like; slots 1 and 2 hold the static
    and later the DF-based bulge and halo components, neither disk-like.
    Each slot is assigned once; every [iterate()] sees three components; the
    list never shrinks and all six component objects stay in the store. *)
Theorem C4_three_slots raises ini s' :
  main raises ini initial = (s', inr tt) →
  ∃ p model c0 c1 c2 c0' c1' c2'
      densityDisk densityBulge densityHalo dfDisk dfBulge dfHalo pot pot_sph,
    reads ini p
    ∧ components_history [] (trace s') =
        [[c0]; [c0; c1]; [c0; c1; c2];
         [c0'; c1; c2]; [c0'; c1'; c2]; [c0'; c1'; c2']]
    ∧ List.filter is_list_change (steps (trace s')) =
        [Append; Append; Append; Replace 0; Replace 1; Replace 2]
    ∧ map (map fst) (iterate_calls (trace s')) =
        [c0; c1; c2] :: replicate 6 [c0'; c1'; c2']
    ∧ components <$> model_of s' model = Some [c0'; c1'; c2']
    ∧ heap s' !! densityDisk = Some (ODensity (DensityParams (iniPotenDisk p)))
    ∧ heap s' !! densityBulge = Some (ODensity (DensityParams (iniPotenBulge p)))
    ∧ heap s' !! densityHalo = Some (ODensity (DensityParams (iniPotenHalo p)))
    ∧ heap s' !! dfDisk = Some (ODF (DFParams pot (iniDFDisk p)))
    ∧ heap s' !! dfBulge = Some (ODF (DFPseudoIsotropic pot_sph densityBulge))
    ∧ heap s' !! dfHalo = Some (ODF (DFPseudoIsotropic pot_sph densityHalo))
    ∧ static_component s' c0 densityDisk true
    ∧ static_component s' c1 densityBulge false
    ∧ static_component s' c2 densityHalo false
    ∧ df_component s' c0' dfDisk true (iniSCMDisk p)
    ∧ df_component s' c1' dfBulge false (iniSCMBulge p)
    ∧ df_component s' c2' dfHalo false (iniSCMHalo p).
Proof.
  intros H. destruct (main_completes _ _ _ H) as (p & Hr & ->).
  exists p, 0, 4, 5, 6, 13, 14, 15, 1, 2, 3, 9, 11, 12, 7, 10.
  split; [exact Hr|]. clear. rewrite completed_evaluated. destruct p.
  unfold static_component, df_component.
  repeat split; try (vm_compute; reflexivity); eexists; vm_compute; reflexivity.
Qed.

Lemma C4_three_slots_witness :
  main (python_raises never) ini0 initial = (completed params0, inr tt)
  ∧ ∃ c0 c1 c2 c0' c1' c2',
      components_history [] (trace (completed params0)) =
        [[c0]; [c0; c1]; [c0; c1; c2];
         [c0'; c1; c2]; [c0'; c1'; c2]; [c0'; c1'; c2']].
Proof.
  split; [run_completes|].
  destruct (C4_three_slots (python_raises never) ini0 (completed params0))
    as (p & model & c0 & c1 & c2 & c0' & c1' & c2'
        & ? & ? & ? & ? & ? & ? & ? & ? & _ & H & _); [run_completes|].
  exists c0, c1, c2, c0', c1', c2'. exact H.
Defined.

(** ** Construction of the distribution functions *)

(** C2. In every completed run the bulge and halo DFs are the two
    pseudo-isotropic DFs, each built from its own target density (the density
    made from the group [Potential bulge], resp. [Potential halo]) and from one
    and the same potential object [pot_sph]; [pot_sph] is the Multipole
    expansion with [lmax=0] of the model potential [pot] current at that time,
    the one published by the bootstrap iteration from the three static
    densities.  The disk DF is built from [pot] itself, a different object.
    These DFs are the ones held by the bulge, halo and disk slots. *)
Theorem C2_spheroidal_df_construction raises ini s' :
  main raises ini initial = (s', inr tt) →
  ∃ p model pot pot_sph densityDisk densityBulge densityHalo
      dfDisk dfBulge dfHalo cDisk cBulge cHalo later,
    reads ini p
    ∧ construction_order (trace s') =
        [Published pot; BuiltDF dfDisk; BuiltMultipole pot_sph;
         BuiltDF dfBulge; BuiltDF dfHalo] ++ map Published later
    ∧ heap s' !! pot =
        Some (OPotential (PotSolved [densityDisk; densityBulge; densityHalo]
                                    (iniSCM p)))
    ∧ heap s' !! pot_sph = Some (OPotential (PotMultipole pot 0 100 "1e-3" "1e3"))
    ∧ heap s' !! densityBulge = Some (ODensity (DensityParams (iniPotenBulge p)))
    ∧ heap s' !! densityHalo = Some (ODensity (DensityParams (iniPotenHalo p)))
    ∧ heap s' !! dfBulge = Some (ODF (DFPseudoIsotropic pot_sph densityBulge))
    ∧ heap s' !! dfHalo = Some (ODF (DFPseudoIsotropic pot_sph densityHalo))
    ∧ heap s' !! dfDisk = Some (ODF (DFParams pot (iniDFDisk p)))
    ∧ pot ≠ pot_sph
    ∧ components <$> model_of s' model = Some [cDisk; cBulge; cHalo]
    ∧ df_component s' cDisk dfDisk true (iniSCMDisk p)
    ∧ df_component s' cBulge dfBulge false (iniSCMBulge p)
    ∧ df_component s' cHalo dfHalo false (iniSCMHalo p).
Proof.
  intros H. destruct (main_completes _ _ _ H) as (p & Hr & ->).
  exists p, 0, 7, 10, 1, 2, 3, 9, 11, 12, 13, 14, 15, [19; 24; 29; 34; 39; 44].
  split; [exact Hr|]. clear. rewrite completed_evaluated. destruct p.
  unfold df_component.
  repeat split; try (vm_compute; reflexivity); try discriminate;
    eexists; vm_compute; reflexivity.
Qed.

Lemma C2_spheroidal_df_construction_witness :
  main (python_raises never) ini0 initial = (completed params0, inr tt)
  ∧ ∃ pot pot_sph densityBulge densityHalo dfBulge dfHalo,
      heap (completed params0) !! pot_sph =
        Some (OPotential (PotMultipole pot 0 100 "1e-3" "1e3"))
      ∧ heap (completed params0) !! dfBulge =
          Some (ODF (DFPseudoIsotropic pot_sph densityBulge))
      ∧ heap (completed params0) !! dfHalo =
          Some (ODF (DFPseudoIsotropic pot_sph densityHalo)).
Proof.
  split; [run_completes|].
  destruct (C2_spheroidal_df_construction (python_raises never) ini0
              (completed params0))
    as (p & model & pot & pot_sph & densityDisk & densityBulge & densityHalo
        & dfDisk & dfBulge & dfHalo & cDisk & cBulge & cHalo & later
        & _ & _ & _ & Hs & _ & _ & Hb & Hh & _); [run_completes|].
  exists pot, pot_sph, densityBulge, densityHalo, dfBulge, dfHalo. auto.
Defined.

(** ** The DF objects over the run *)

(** C10. In every completed run exactly three DFs are constructed: the
    disk DF from the potential [pot] published by the bootstrap iteration, the
    bulge and halo DFs from its [lmax=0] Multipole expansion.  Each of the six
    later [iterate()] calls sees components holding these same three objects
    and integrates their densities from them, in the potential published just
    before; from one iteration to the next only that potential differs, and it
    is a new object each time.  The four [GalaxyModel]s built at the end take
    the same DF objects together with the last potential. *)
Theorem C10_df_constructed_once raises ini s' :
  main raises ini initial = (s', inr tt) →
  ∃ p pot pot_sph densityBulge densityHalo dfDisk dfBulge dfHalo later final af,
    reads ini p
    ∧ constructed_dfs (trace s') =
        [(dfDisk, DFParams pot (iniDFDisk p));
         (dfBulge, DFPseudoIsotropic pot_sph densityBulge);
         (dfHalo, DFPseudoIsotropic pot_sph densityHalo)]
    ∧ NoDup [dfDisk; dfBulge; dfHalo]
    ∧ heap s' !! pot_sph = Some (OPotential (PotMultipole pot 0 100 "1e-3" "1e3"))
    ∧ published (trace s') = pot :: later ++ [final]
    ∧ length later = 5
    ∧ NoDup (pot :: later ++ [final])
    ∧ map (map (comp_df ∘ snd)) (drop 1 (iterate_calls (trace s'))) =
        replicate 6 [Some dfDisk; Some dfBulge; Some dfHalo]
    ∧ integrated_densities (trace s') =
        concat (map (λ q, [DensityOfDF dfDisk q true (iniSCMDisk p);
                           DensityOfDF dfBulge q false (iniSCMBulge p);
                           DensityOfDF dfHalo q false (iniSCMHalo p)])
                    (pot :: later))
    ∧ galaxy_models (trace s') =
        [(final, dfDisk, af); (final, dfDisk, af);
         (final, dfBulge, af); (final, dfHalo, af)].
Proof.
  intros H. destruct (main_completes _ _ _ H) as (p & Hr & ->).
  exists p, 7, 10, 2, 3, 9, 11, 12, [19; 24; 29; 34; 39], 44, 45.
  split; [exact Hr|]. clear. rewrite completed_evaluated. destruct p.
  repeat split; try (vm_compute; reflexivity);
    apply (bool_decide_unpack _); vm_compute; reflexivity.
Qed.

Lemma C10_df_constructed_once_witness :
  main (python_raises never) ini0 initial = (completed params0, inr tt)
  ∧ length (constructed_dfs (trace (completed params0))) = 3.
Proof.
  split; [run_completes|].
  destruct (C10_df_constructed_once (python_raises never) ini0
              (completed params0))
    as (p & pot & pot_sph & densityBulge & densityHalo & dfDisk & dfBulge
        & dfHalo & later & final & af & _ & Hc & _); [run_completes|].
  rewrite Hc. reflexivity.
Defined.

(** ** Diagnostic output *)

(** C9. In every completed run [printoutInfo] is called seven times, with
    iteration numbers 0, 0, 1, 2, 3, 4, 5: the first call with 0 comes after
    the bootstrap iteration and before the slot assignments, the second after
    the first of the six later iterations.  Each of the four [iter0] files
    is written by exactly these two calls (the rotation curve file by an
    export and then a savetxt within each call).  The first call writes the
    static densities and the bootstrap potential's rotation curve; the second
    overwrites them with the densities integrated from the DFs and the
    rotation curve of the next potential, which is what the files hold at
    the end of the run. *)
Theorem C9_iter0_files_overwritten raises ini s' :
  main raises ini initial = (s', inr tt) →
  ∃ p densityDisk densityBulge densityHalo dfDisk dfBulge dfHalo
      pot0 pot1 later dDisk dBulge dHalo,
    reads ini p
    ∧ steps (trace s') =
        [Append; Append; Append; IterateCall; IterateReturn; Printout 0;
         Replace 0; Replace 1; Replace 2; IterateCall; IterateReturn; Printout 0]
        ++ concat (map (λ k, [IterateCall; IterateReturn; Printout k])
                       [1; 2; 3; 4; 5]%Z)
    ∧ take 2 (printouts None (trace s')) =
        replicate 2
          (VInt 0, ["dens_disk_iter0"; "dens_bulge_iter0"; "dens_halo_iter0";
                    "rotcurve_iter0"; "rotcurve_iter0"])
    ∧ map (λ f, printouts_writing f (trace s')) iter0_files = [2; 2; 2; 2]
    ∧ published (trace s') = pot0 :: pot1 :: later
    ∧ heap s' !! densityDisk = Some (ODensity (DensityParams (iniPotenDisk p)))
    ∧ heap s' !! densityBulge = Some (ODensity (DensityParams (iniPotenBulge p)))
    ∧ heap s' !! densityHalo = Some (ODensity (DensityParams (iniPotenHalo p)))
    ∧ heap s' !! dDisk =
        Some (ODensity (DensityOfDF dfDisk pot0 true (iniSCMDisk p)))
    ∧ heap s' !! dBulge =
        Some (ODensity (DensityOfDF dfBulge pot0 false (iniSCMBulge p)))
    ∧ heap s' !! dHalo =
        Some (ODensity (DensityOfDF dfHalo pot0 false (iniSCMHalo p)))
    ∧ writes_to "dens_disk_iter0" (trace s') = [Exported densityDisk; Exported dDisk]
    ∧ writes_to "dens_bulge_iter0" (trace s') = [Exported densityBulge; Exported dBulge]
    ∧ writes_to "dens_halo_iter0" (trace s') = [Exported densityHalo; Exported dHalo]
    ∧ writes_to "rotcurve_iter0" (trace s') =
        [Exported pot0; rotation_curve pot0; Exported pot1; rotation_curve pot1]
    ∧ files s' !! "dens_disk_iter0" = Some (Exported dDisk)
    ∧ files s' !! "dens_bulge_iter0" = Some (Exported dBulge)
    ∧ files s' !! "dens_halo_iter0" = Some (Exported dHalo)
    ∧ files s' !! "rotcurve_iter0" = Some (rotation_curve pot1)
    ∧ densityDisk ≠ dDisk ∧ densityBulge ≠ dBulge ∧ densityHalo ≠ dHalo
    ∧ pot0 ≠ pot1.
Proof.
  intros H. destruct (main_completes _ _ _ H) as (p & Hr & ->).
  exists p, 1, 2, 3, 9, 11, 12, 7, 19, [24; 29; 34; 39; 44], 16, 17, 18.
  split; [exact Hr|]. clear. rewrite completed_evaluated. destruct p.
  repeat split; try (vm_compute; reflexivity); discriminate.
Qed.

Lemma C9_iter0_files_overwritten_witness :
  main (python_raises never) ini0 initial = (completed params0, inr tt)
  ∧ map (λ f, printouts_writing f (trace (completed params0))) iter0_files
    = [2; 2; 2; 2].
Proof.
  split; [run_completes|].
  destruct (C9_iter0_files_overwritten (python_raises never) ini0
              (completed params0))
    as (p & densityDisk & densityBulge & densityHalo & dfDisk & dfBulge & dfHalo
        & pot0 & pot1 & later & dDisk & dBulge & dHalo
        & _ & _ & _ & Hw & _); [run_completes|].
  exact Hw.
Defined.

(** ** What a failed iteration leaves behind *)

Lemma keeps_refl s : keeps s s.
Proof. by intros o x. Qed.

Lemma keeps_trans s1 s2 s3 : keeps s1 s2 → keeps s2 s3 → keeps s1 s3.
Proof. intros H1 H2 o x Ho Hx. eauto. Qed.

Lemma keeps_model s s' m r : keeps s s' → model_of s m = Some r → model_of s' m = Some r.
Proof.
  unfold model_of. intros Hk Hm.
  destruct (heap s !! m) as [[]|] eqn:E; simplify_eq.
  by rewrite (Hk _ _ E).
Qed.

Ltac unfold_M :=
  unfold load_component, load_model, load, new, attempt, alloc, store, emit, log,
    mbind, M_bind, bind, mret, M_ret, ret, raise in *.

Section Failure.

Variable raises : state → call → bool.

Lemma density_contribution_keeps kw pot c s s' res :
  density_contribution raises kw pot c s = (s', res) → keeps s s'.
Proof.
  unfold density_contribution. unfold_M. intros H.
  repeat (case_match; simplify_eq/=); try apply keeps_refl.
  intros o' x Ho Hx. simpl.
  assert (o' ≠ c) by (intros ->; simplify_eq; exact (Hx _ eq_refl)).
  rewrite list_lookup_insert_ne by done.
  by apply lookup_app_l_Some.
Qed.

Lemma contributions_keeps kw pot cs s s' res :
  contributions raises kw pot cs s = (s', res) → keeps s s'.
Proof.
  revert s s' res. induction cs as [|c cs IH]; intros s s' res; simpl.
  - unfold_M. intros; simplify_eq. apply keeps_refl.
  - unfold mbind, M_bind, bind.
    destruct (density_contribution raises kw pot c s) as [s1 [e|d]] eqn:E1.
    + intros; simplify_eq. eapply density_contribution_keeps; eauto.
    + destruct (contributions raises kw pot cs s1) as [s2 [e|ds]] eqn:E2;
        unfold mret, M_ret, ret; intros; simplify_eq;
        (eapply keeps_trans; [eapply density_contribution_keeps|eapply IH]; eauto).
Qed.

Lemma publish_fails_keeps m ds s s' e :
  publish raises m ds s = (s', inl e) → keeps s s'.
Proof.
  unfold publish. unfold_M. intros H.
  repeat (case_match; simplify_eq/=); try apply keeps_refl.
  all: intros o' x Ho Hx; simpl; by apply lookup_app_l_Some.
Qed.

Lemma load_model_inv m s s' res :
  load_model m s = (s', res) →
  s' = s ∧ match res with inr r => model_of s m = Some r | inl _ => model_of s m = None end.
Proof.
  unfold model_of. unfold_M. intros H.
  repeat (case_match; simplify_eq/=); done.
Qed.

Lemma load_model_of m s r : model_of s m = Some r → load_model m s = (s, inr r).
Proof.
  unfold model_of. unfold_M. intros H.
  repeat (case_match; simplify_eq/=); done.
Qed.

Lemma iterate_fails_keeps m s s' e :
  iterate raises m s = (s', inl e) → keeps s s'.
Proof.
  unfold iterate, snapshot. unfold mbind, M_bind, bind.
  destruct (load_model m s) as [s0 [e0|r]] eqn:E0;
    apply load_model_inv in E0 as [-> _].
  { intros; simplify_eq. apply keeps_refl. }
  unfold emit.
  destruct (contributions raises (scm_kw r) (scm_potential r) (components r)
              (log (EvIterateBegin (seen s (components r))) s))
    as [s1 [e1|ds]] eqn:E1; apply contributions_keeps in E1.
  - intros; simplify_eq. exact E1.
  - intros H. apply publish_fails_keeps in H.
    eapply keeps_trans; [exact E1|exact H].
Qed.

Lemma solver_failure m s r s1 ds :
  model_of s m = Some r →
  contributions raises (scm_kw r) (scm_potential r) (components r)
    (log (EvIterateBegin (seen s (components r))) s) = (s1, inr ds) →
  raises s1 (Construct (OPotential (PotSolved ds (scm_kw r)))) = true →
  iterate raises m s = (s1, inl SolveError).
Proof.
  intros Hm Hc Hr. unfold iterate, snapshot. unfold mbind, M_bind, bind.
  rewrite (load_model_of _ _ _ Hm). unfold emit. rewrite Hc.
  unfold publish. unfold mbind, M_bind, bind.
  apply contributions_keeps in Hc.
  rewrite (load_model_of m s1 r) by (by apply (keeps_model _ _ _ _ Hc)).
  unfold attempt. by rewrite Hr.
Qed.

End Failure.

(** C7. [iterate] as modelled from the spec.  When the potential solver
    raises on the summed contributions, the call fails with [SolveError].
    Whenever a call fails, with [SolveError] or otherwise, the model object is
    as before, so its potential is the one published before the call, and
    that potential object is still in the store, unchanged. *)
Theorem C7_iterate_all_or_nothing raises m s :
  (∀ r s1 ds,
     model_of s m = Some r →
     contributions raises (scm_kw r) (scm_potential r) (components r)
       (log (EvIterateBegin (seen s (components r))) s) = (s1, inr ds) →
     raises s1 (Construct (OPotential (PotSolved ds (scm_kw r)))) = true →
     iterate raises m s = (s1, inl SolveError))
  ∧ (∀ s' e,
       iterate raises m s = (s', inl e) →
       model_of s' m = model_of s m
       ∧ potential_of s' m = potential_of s m
       ∧ ∀ p x, potential_of s m = Some p →
                heap s !! p = Some (OPotential x) →
                heap s' !! p = Some (OPotential x)).
Proof.
  split; [intros r s1 ds; apply solver_failure|].
  intros s' e H.
  assert (Hm : model_of s' m = model_of s m).
  { destruct (model_of s m) as [r|] eqn:Em.
    - eapply keeps_model; [eapply iterate_fails_keeps|]; eauto.
    - revert H. unfold iterate, mbind, M_bind, bind.
      destruct (load_model m s) as [s0 [e0|r]] eqn:E0;
        apply load_model_inv in E0 as [-> E0].
      + intros; simplify_eq. exact Em.
      + congruence. }
  split; [exact Hm|]. split; [unfold potential_of; by rewrite Hm|].
  intros p x _ Hp.
  apply (iterate_fails_keeps raises m s s' e H p); [exact Hp|discriminate].
Qed.

Lemma C7_iterate_all_or_nothing_witness :
  let s' := log (EvIterateBegin (seen iterated_once [2])) iterated_once in
  iterate solver_down 0 iterated_once = (s', inl SolveError)
  ∧ potential_of s' 0 = potential_of iterated_once 0
  ∧ heap s' !! 3 = Some (OPotential (PotSolved [1] ∅)).
Proof.
  intros s'.
  destruct (C7_iterate_all_or_nothing solver_down 0 iterated_once) as [H1 H2].
  pose proof (H1 (SCM [2] (Some 3) (Some 4) ∅) s' [1] eq_refl eq_refl eq_refl) as Hf.
  destruct (H2 _ _ Hf) as (_ & Hp & Hk).
  split; [exact Hf|]. split; [exact Hp|]. apply Hk; reflexivity.
Defined.

(** ** What [writeRotationCurve] leaves in the file *)

(** A completed call writes the file twice: the exported potential, then
    the rotation curve table over it. *)
Lemma writeRotationCurve_writes raises filename potential s s' :
  writeRotationCurve raises filename potential s = (s', inr tt) →
  s' = State (heap s)
             (<[filename := rotation_curve potential]>
                (<[filename := Exported potential]> (files s)))
             (trace s ++ [EvWrite filename (Exported potential);
                          EvWrite filename (rotation_curve potential)]).
Proof.
  unfold writeRotationCurve, export, invoke, numpy_savetxt, write. unfold_M.
  intros H. repeat (case_match; simplify_eq/=).
  by rewrite <- app_assoc.
Qed.

(** C6, as amended. When a call [writeRotationCurve(filename, potential)]
    returns, the file [filename] holds the rotation curve table that
    [numpy.savetxt] wrote for that potential. *)
Theorem C6_file_holds_rotation_curve raises filename potential s s' :
  writeRotationCurve raises filename potential s = (s', inr tt) →
  files s' !! filename = Some (rotation_curve potential).
Proof.
  intros H. rewrite (writeRotationCurve_writes _ _ _ _ _ H). simpl.
  apply lookup_insert_eq.
Qed.

Lemma C6_file_holds_rotation_curve_witness :
  writeRotationCurve never "rotcurve_init" 3 iterated_once
  = (fst (writeRotationCurve never "rotcurve_init" 3 iterated_once), inr tt)
  ∧ files (fst (writeRotationCurve never "rotcurve_init" 3 iterated_once))
      !! "rotcurve_init" = Some (rotation_curve 3).
Proof.
  split; [vm_compute; reflexivity|].
  apply (C6_file_holds_rotation_curve never "rotcurve_init" 3 iterated_once).
  vm_compute; reflexivity.
Defined.

(** C6, as stated, fails: after the call on the potential of
    [iterated_once] the file does not hold the exported potential. *)
Lemma C6_file_holds_exported_potential_counterexample :
  ¬ (∀ raises filename potential s s',
       writeRotationCurve raises filename potential s = (s', inr tt) →
       files s' !! filename = Some (Exported potential)).
Proof.
  intros H.
  specialize (H never "rotcurve_init" 3 iterated_once _ eq_refl).
  vm_compute in H. discriminate H.
Qed.

(** * Further properties of the driver *)

(** ** A missing group *)

Lemma bind_items_some {A} ini k d (f : dict → M A) s :
  ini !! k = Some d → (items ini k ≫= f) s = f d s.
Proof. intros H. unfold mbind, M_bind, bind, items. by rewrite H. Qed.

Lemma bind_items_none {A} ini k (f : dict → M A) s :
  ini !! k = None → (items ini k ≫= f) s = (s, inl (NoSectionError k)).
Proof. intros H. unfold mbind, M_bind, bind, items. by rewrite H. Qed.

Lemma main_without_section raises ini s k :
  first_missing ini sections = Some k →
  main raises ini s = (s, inl (NoSectionError k)).
Proof.
  unfold sections, main. simpl.
  repeat lazymatch goal with
  | |- context [match ini !! ?n with _ => _ end] =>
      destruct (ini !! n) as [?d|] eqn:?;
      [ erewrite bind_items_some by eassumption
      | intros [= <-]; by apply bind_items_none ]
  end.
  done.
Qed.

Lemma main_with_sections raises ini :
  first_missing ini sections = None →
  ∃ p, reads ini p ∧ ∀ s, main raises ini s = main raises (parsed p) s.
Proof.
  unfold sections, first_missing, reads.
  destruct (ini !! "Potential halo") as [d1|] eqn:E1; [|discriminate].
  destruct (ini !! "Potential bulge") as [d2|] eqn:E2; [|discriminate].
  destruct (ini !! "Potential disk") as [d3|] eqn:E3; [|discriminate].
  destruct (ini !! "DF disk") as [d4|] eqn:E4; [|discriminate].
  destruct (ini !! "SelfConsistentModel halo") as [d5|] eqn:E5; [|discriminate].
  destruct (ini !! "SelfConsistentModel bulge") as [d6|] eqn:E6; [|discriminate].
  destruct (ini !! "SelfConsistentModel disk") as [d7|] eqn:E7; [|discriminate].
  destruct (ini !! "SelfConsistentModel") as [d8|] eqn:E8; [|discriminate].
  intros _. exists (Parameters d1 d2 d3 d4 d5 d6 d7 d8).
  split; [by repeat split|].
  intros s. unfold main.
  repeat (erewrite bind_items_some by eassumption).
  symmetry.
  repeat (erewrite bind_items_some by reflexivity).
  reflexivity.
Qed.

(** X1. When the configuration lacks one of the eight groups, [main]
    raises [NoSectionError] for the first one missing in the order it reads
    them, and the state is as before: nothing is constructed, printed or
    written. *)
Theorem X1_missing_section raises ini s k :
  first_missing ini sections = Some k →
  main raises ini s = (s, inl (NoSectionError k)).
Proof. apply main_without_section. Qed.

Lemma X1_missing_section_witness :
  first_missing ∅ sections = Some "Potential halo"
  ∧ main never ∅ initial = (initial, inl (NoSectionError "Potential halo")).
Proof.
  split; [reflexivity|].
  apply (X1_missing_section never ∅ initial). reflexivity.
Defined.

(** ** Relations kept whatever the outcome *)

Section Always.
Context (R : state → state → Prop) `{!Stable R}.

Lemma always_ret {A} (a : A) : always R (mret a : M A).
Proof. intros s s' r [= <- _]. apply stable_refl. Qed.

Lemma always_raise {A} e : always R (raise e : M A).
Proof. intros s s' r [= <- _]. apply stable_refl. Qed.

Lemma always_bind {A B} (m : M A) (k : A → M B) :
  always R m → (∀ a, always R (k a)) → always R (m ≫= k).
Proof.
  intros Hm Hk s s' r. unfold mbind, M_bind, bind.
  destruct (m s) as [s1 [e|a]] eqn:E.
  - intros [= <- _]. eauto.
  - intros H. eapply stable_trans; [eapply Hm|eapply Hk]; eauto.
Qed.

Lemma always_for_in {A} (xs : list A) (body : A → M unit) :
  (∀ x, always R (body x)) → always R (for_in xs body).
Proof.
  intros Hb. induction xs as [|x xs IH]; simpl.
  - apply (always_ret tt).
  - apply always_bind; [apply Hb|intros _; apply IH].
Qed.

Lemma always_attempt raises c e : always R (attempt raises c e).
Proof.
  intros s s' r. unfold attempt.
  destruct (raises s c); intros [= <- _]; apply stable_refl.
Qed.

Lemma always_load o : always R (load o).
Proof.
  intros s s' r. unfold load.
  destruct (heap s !! o); intros [= <- _]; apply stable_refl.
Qed.

Lemma always_snapshot cs : always R (snapshot cs).
Proof. intros s s' r [= <- _]. apply stable_refl. Qed.

Lemma always_emit e : (∀ s, R s (log e s)) → always R (emit e).
Proof. intros He s s' r [= <- _]. apply He. Qed.

Lemma always_items ini k : always R (items ini k).
Proof.
  unfold items. destruct (ini !! k); [apply always_ret|apply always_raise].
Qed.

End Always.

(** One step of a proof that a program keeps a relation; [log_tac] settles
    the events it emits. *)
Ltac always_step log_tac :=
  lazymatch goal with
  | |- Stable _ => tc_solve
  | |- always _ _ =>
      first
        [ apply always_ret | apply always_raise | apply always_attempt
        | apply always_load | apply always_snapshot | apply always_items
        | match goal with H : context [always] |- _ => apply H end
        | apply always_emit; intros ?; log_tac
        | apply always_bind
        | apply always_for_in
        | match goal with
          | |- always _ (match ?x with _ => _ end) => destruct x
          | |- always _ (if ?x then _ else _) => destruct x
          end ]
  | |- ∀ _, _ => intros ?
  end.

(** ** What the diagnostic functions touch *)

Ltac only_files_tac := repeat always_step ltac:(by split).

Section OnlyFiles.
Variable raises : state → call → bool.
Variable F : list string.

#[global] Instance only_files_stable : Stable (only_files F).
Proof.
  split.
  - by split.
  - intros s1 s2 s3 [H1 G1] [H2 G2]. split; [congruence|].
    intros g Hg. rewrite G2, G1; done.
Qed.

Lemma only_files_write f c : f ∈ F → always (only_files F) (write f c).
Proof.
  intros Hf s s' r [= <- _]. split; [done|]. simpl.
  intros g Hg. apply lookup_insert_ne. intros ->. done.
Qed.

Lemma only_files_export o f : f ∈ F → always (only_files F) (export raises o f).
Proof.
  intros Hf. unfold export.
  pose proof (only_files_write f (Exported o) Hf). only_files_tac.
Qed.

Lemma only_files_savetxt f d fmt h :
  f ∈ F → always (only_files F) (numpy_savetxt raises f d fmt h).
Proof.
  intros Hf. unfold numpy_savetxt.
  pose proof (only_files_write f (Table d fmt h) Hf). only_files_tac.
Qed.

Lemma only_files_invoke f args : always (only_files F) (invoke raises f args).
Proof. unfold invoke. only_files_tac. Qed.

End OnlyFiles.

Lemma only_files_writeRotationCurve raises filename potential :
  always (only_files [filename]) (writeRotationCurve raises filename potential).
Proof.
  unfold writeRotationCurve.
  pose proof (only_files_export raises [filename] potential filename).
  pose proof (λ d fmt h, only_files_savetxt raises [filename] filename d fmt h).
  pose proof (only_files_invoke raises [filename]).
  only_files_tac; set_solver.
Qed.

(** X2. Whether it returns or raises, [writeRotationCurve] leaves the object
    store as it was and changes no file but the one it is given. *)
Theorem X2_writeRotationCurve_only_its_file raises filename potential s s' r :
  writeRotationCurve raises filename potential s = (s', r) →
  heap s' = heap s ∧ ∀ g, g ≠ filename → files s' !! g = files s !! g.
Proof.
  intros H. destruct (only_files_writeRotationCurve _ _ _ _ _ _ H) as [Hh Hf].
  split; [done|]. intros g Hg. apply Hf. set_solver.
Qed.

Lemma X2_writeRotationCurve_only_its_file_witness :
  heap (fst (writeRotationCurve force_down "rotcurve_init" 7 bootstrapped))
  = heap bootstrapped
  ∧ files (fst (writeRotationCurve force_down "rotcurve_init" 7 bootstrapped))
      !! "disk_plane"
    = files bootstrapped !! "disk_plane".
Proof.
  destruct (X2_writeRotationCurve_only_its_file force_down "rotcurve_init" 7
              bootstrapped
              (fst (writeRotationCurve force_down "rotcurve_init" 7 bootstrapped))
              (snd (writeRotationCurve force_down "rotcurve_init" 7 bootstrapped)))
    as [Hh Hf].
  { by destruct (writeRotationCurve force_down "rotcurve_init" 7 bootstrapped). }
  split; [exact Hh|]. apply Hf. discriminate.
Defined.

Ltac unfold_state :=
  unfold load_component, load_model, load, new, attempt, alloc, store, emit, log,
    mbind, M_bind, bind, mret, M_ret, ret, raise in *.



Lemma only_files_printoutInfo raises m i :
  always (only_files (printout_files i)) (printoutInfo raises m i).
Proof.
  unfold printoutInfo, components_get, getDensity, model_potential, print,
    load_model, load_component.
  assert (Hw : ∀ p, always (only_files (printout_files i))
                      (writeRotationCurve raises ("rotcurve_iter" +:+ str i) p)).
  { intros p s s' r H.
    destruct (only_files_writeRotationCurve _ _ _ _ _ _ H) as [Hh Hf].
    split; [done|]. intros g Hg. apply Hf.
    unfold printout_files in Hg. set_solver. }
  pose proof (only_files_invoke raises (printout_files i)).
  assert (He : ∀ o f, f ∈ printout_files i →
                      always (only_files (printout_files i)) (export raises o f))
    by (intros; by apply only_files_export).
  only_files_tac; unfold printout_files; set_solver.
Qed.

Lemma str_inj i j : str i = str j → i = j.
Proof.
  unfold str. intros H.
  apply (f_equal NilEmpty.uint_of_string) in H.
  rewrite !NilEmpty.usu in H. injection H as H.
  apply (f_equal Nat.of_uint) in H.
  by rewrite !DecimalNat.Unsigned.of_to in H.
Qed.

Lemma printout_files_disjoint i j g :
  i ≠ j → g ∈ printout_files i → g ∉ printout_files j.
Proof.
  intros Hij Hi Hj. unfold printout_files in *.
  repeat (apply elem_of_cons in Hi as [->|Hi]);
    [| | | |by apply elem_of_nil in Hi];
    repeat (apply elem_of_cons in Hj as [Hj|Hj]);
    try (by apply elem_of_nil in Hj);
    simpl in Hj; try discriminate Hj;
    injection Hj as Hj; by apply str_inj in Hj.
Qed.

(** X4. Whether it returns or raises, [printoutInfo] leaves the object store
    as it was and changes no file but the four of its iteration number; in
    particular the files of every other iteration number stay as they are. *)
Theorem X4_printoutInfo_only_its_files raises m i s s' r :
  printoutInfo raises m i s = (s', r) →
  heap s' = heap s
  ∧ (∀ g, g ∉ printout_files i → files s' !! g = files s !! g)
  ∧ (∀ j g, j ≠ i → g ∈ printout_files j → files s' !! g = files s !! g).
Proof.
  intros H. destruct (only_files_printoutInfo _ _ _ _ _ _ H) as [Hh Hf].
  split; [done|]. split; [done|].
  intros j g Hj Hg. apply Hf. by eapply printout_files_disjoint.
Qed.

Lemma X4_printoutInfo_only_its_files_witness :
  snd (printoutInfo never 0 3 bootstrapped) = inr tt
  ∧ heap (fst (printoutInfo never 0 3 bootstrapped)) = heap bootstrapped
  ∧ files (fst (printoutInfo never 0 3 bootstrapped)) !! "rotcurve_iter2" = None.
Proof.
  split; [vm_compute; reflexivity|].
  destruct (X4_printoutInfo_only_its_files never 0 3 bootstrapped
              (fst (printoutInfo never 0 3 bootstrapped))
              (snd (printoutInfo never 0 3 bootstrapped))) as (Hh & _ & Hf).
  { by destruct (printoutInfo never 0 3 bootstrapped). }
  split; [exact Hh|].
  rewrite (Hf 2 "rotcurve_iter2"); [reflexivity|lia|].
  unfold printout_files. set_solver.
Defined.

(** X5. On a model with fewer than three components [printoutInfo] raises
    before it prints or writes anything; with no component at all the error
    is the [IndexError] of [model.components[0]]. *)
Theorem X5_printoutInfo_needs_three raises m i s r :
  model_of s m = Some r →
  length (components r) < 3 →
  ∃ e, printoutInfo raises m i s
       = (log (EvEnter "printoutInfo" (VInt (Z.of_nat i))) s, inl e)
       ∧ (components r = [] → e = IndexError 0).
Proof.
  unfold model_of. intros Hm Hl.
  destruct (heap s !! m) as [[]|] eqn:Em; simplify_eq.
  destruct r as [cs pot af kw]. simpl in *.
  unfold printoutInfo, components_get, getDensity. unfold_state. simpl. rewrite Em.
  destruct cs as [|c0 [|c1 [|c2 cs]]]; simpl in *; try lia.
  - eauto.
  - repeat (case_match; simplify_eq/=); eexists; (split; [done|done]).
  - repeat (case_match; simplify_eq/=); eexists; (split; [done|done]).
Qed.

Lemma X5_printoutInfo_needs_three_witness :
  ∃ e, printoutInfo never 0 0 iterated_once
       = (log (EvEnter "printoutInfo" (VInt 0)) iterated_once, inl e).
Proof.
  destruct (X5_printoutInfo_needs_three never 0 0 iterated_once
              (SCM [2] (Some 3) (Some 4) ∅) eq_refl) as (e & He & _).
  - simpl. lia.
  - exists e. exact He.
Defined.

(** X6. When [printoutInfo] returns, the three density files of its
    iteration number hold the exports of the densities of slots 0, 1 and 2,
    and the rotation curve file holds the curve of the model's potential. *)
Theorem X6_printoutInfo_exports raises m i s s' :
  printoutInfo raises m i s = (s', inr tt) →
  ∃ d0 d1 d2 p,
    slot_density s m 0 = Some d0
    ∧ slot_density s m 1 = Some d1
    ∧ slot_density s m 2 = Some d2
    ∧ potential_of s m = Some p
    ∧ files s' !! ("dens_disk_iter" +:+ str i) = Some (Exported d0)
    ∧ files s' !! ("dens_bulge_iter" +:+ str i) = Some (Exported d1)
    ∧ files s' !! ("dens_halo_iter" +:+ str i) = Some (Exported d2)
    ∧ files s' !! ("rotcurve_iter" +:+ str i) = Some (rotation_curve p).
Proof.
  intros H. apply agrees_printoutInfo in H. revert H.
  unfold printoutInfo, components_get, getDensity, model_potential, print,
    writeRotationCurve, export, invoke, numpy_savetxt, write.
  unfold slot_density, potential_of, model_of, component_of. unfold_state.
  unfold never. simpl.
  intros H. repeat (case_match; simplify_eq/=).
  do 4 eexists. repeat split; try done.
  all: repeat first [ apply lookup_insert_eq
                    | rewrite lookup_insert_ne by discriminate ].
  all: repeat match goal with
              | H : ?x = Some _ |- context [?x] => rewrite H; simpl
              end; done.
Qed.

Lemma X6_printoutInfo_exports_witness :
  files (fst (printoutInfo never 0 3 bootstrapped)) !! "dens_bulge_iter3"
  = Some (Exported 2).
Proof.
  destruct (X6_printoutInfo_exports never 0 3 bootstrapped
              (fst (printoutInfo never 0 3 bootstrapped)))
    as (d0 & d1 & d2 & p & _ & H1 & _ & _ & _ & Hf & _).
  { vm_compute. reflexivity. }
  vm_compute in H1. injection H1 as <-. exact Hf.
Defined.

(** ** What a completed run leaves on disk *)

(** X7. A completed run leaves exactly 32 files: the initial rotation
    curve, four diagnostic files for each of the iteration numbers 0 to 5, the
    disk plane table and six snapshots. *)
Theorem X7_output_files raises ini s' :
  main raises ini initial = (s', inr tt) →
  Forall (λ f, is_Some (files s' !! f)) output_files
  ∧ size (files s') = length output_files
  ∧ length output_files = 32
  ∧ NoDup output_files.
Proof.
  intros H. destruct (main_completes _ _ _ H) as (p & _ & ->).
  rewrite completed_evaluated. destruct p.
  split; [|split; [|split]].
  - apply (bool_decide_unpack _). vm_compute. reflexivity.
  - vm_compute. reflexivity.
  - reflexivity.
  - apply (bool_decide_unpack _). vm_compute. reflexivity.
Qed.

Lemma X7_output_files_witness :
  main (python_raises never) ini0 initial = (completed params0, inr tt)
  ∧ size (files (completed params0)) = 32.
Proof.
  split; [run_completes|].
  destruct (X7_output_files (python_raises never) ini0 (completed params0))
    as (_ & Hs & Hl & _); [run_completes|].
  by rewrite Hs, Hl.
Defined.

(** X8. In a completed run the files numbered [k] come from the DF-stage
    iteration [k+1]: the density files hold the densities integrated from the
    three DFs in the potential that was current when that iteration started
    (the [k]-th published, counting the bootstrap potential as number 0), and
    the rotation curve file holds the curve of the potential it published. *)
Theorem X8_numbered_files raises ini s' :
  main raises ini initial = (s', inr tt) →
  ∃ p dfDisk dfBulge dfHalo,
    reads ini p
    ∧ map fst (constructed_dfs (trace s')) = [dfDisk; dfBulge; dfHalo]
    ∧ ∀ k, k < 6 →
        ∃ q q' dDisk dBulge dHalo,
          published (trace s') !! k = Some q
          ∧ published (trace s') !! S k = Some q'
          ∧ heap s' !! dDisk
            = Some (ODensity (DensityOfDF dfDisk q true (iniSCMDisk p)))
          ∧ heap s' !! dBulge
            = Some (ODensity (DensityOfDF dfBulge q false (iniSCMBulge p)))
          ∧ heap s' !! dHalo
            = Some (ODensity (DensityOfDF dfHalo q false (iniSCMHalo p)))
          ∧ files s' !! ("dens_disk_iter" +:+ str k) = Some (Exported dDisk)
          ∧ files s' !! ("dens_bulge_iter" +:+ str k) = Some (Exported dBulge)
          ∧ files s' !! ("dens_halo_iter" +:+ str k) = Some (Exported dHalo)
          ∧ files s' !! ("rotcurve_iter" +:+ str k) = Some (rotation_curve q').
Proof.
  intros H. destruct (main_completes _ _ _ H) as (p & Hr & ->).
  exists p, 9, 11, 12. split; [exact Hr|]. clear.
  rewrite completed_evaluated. destruct p.
  split; [vm_compute; reflexivity|].
  intros k Hk.
  do 6 (destruct k as [|k]; [do 5 eexists; vm_compute; repeat split; reflexivity|]).
  lia.
Qed.

Lemma X8_numbered_files_witness :
  main (python_raises never) ini0 initial = (completed params0, inr tt)
  ∧ ∃ q', published (trace (completed params0)) !! 6 = Some q'
          ∧ files (completed params0) !! "rotcurve_iter5" = Some (rotation_curve q').
Proof.
  split; [run_completes|].
  destruct (X8_numbered_files (python_raises never) ini0 (completed params0))
    as (p & dfDisk & dfBulge & dfHalo & _ & _ & Hk); [run_completes|].
  destruct (Hk 5) as (q & q' & dDisk & dBulge & dHalo & _ & Hq & _ & _ & _ & _ & _ & _ & Hf);
    [lia|].
  exists q'. split; [exact Hq|exact Hf].
Defined.

(** X9. In a completed run the three density snapshots are sampled from
    the very density objects exported to the files numbered 5, with 160000,
    40000 and 800000 particles; the three model snapshots are sampled, with
    the same numbers, from [GalaxyModel]s of the last published potential, its
    action finder and the disk, bulge and halo DF; all are written as text. *)
Theorem X9_snapshots raises ini s' :
  main raises ini initial = (s', inr tt) →
  ∃ dDisk dBulge dHalo gDisk gBulge gHalo dfDisk dfBulge dfHalo final af model,
    files s' !! "dens_disk_iter5" = Some (Exported dDisk)
    ∧ files s' !! "dens_bulge_iter5" = Some (Exported dBulge)
    ∧ files s' !! "dens_halo_iter5" = Some (Exported dHalo)
    ∧ files s' !! "dens_disk_final"
      = Some (Snapshot (VCall "sample" [VObj dDisk; VInt 160000]) "text")
    ∧ files s' !! "dens_bulge_final"
      = Some (Snapshot (VCall "sample" [VObj dBulge; VInt 40000]) "text")
    ∧ files s' !! "dens_halo_final"
      = Some (Snapshot (VCall "sample" [VObj dHalo; VInt 800000]) "text")
    ∧ files s' !! "model_disk_final"
      = Some (Snapshot (VCall "sample" [VObj gDisk; VInt 160000]) "text")
    ∧ files s' !! "model_bulge_final"
      = Some (Snapshot (VCall "sample" [VObj gBulge; VInt 40000]) "text")
    ∧ files s' !! "model_halo_final"
      = Some (Snapshot (VCall "sample" [VObj gHalo; VInt 800000]) "text")
    ∧ heap s' !! gDisk = Some (OGalaxyModel final dfDisk af)
    ∧ heap s' !! gBulge = Some (OGalaxyModel final dfBulge af)
    ∧ heap s' !! gHalo = Some (OGalaxyModel final dfHalo af)
    ∧ map fst (constructed_dfs (trace s')) = [dfDisk; dfBulge; dfHalo]
    ∧ last (published (trace s')) = Some final
    ∧ potential_of s' model = Some final
    ∧ scm_af <$> model_of s' model = Some (Some af).
Proof.
  intros H. destruct (main_completes _ _ _ H) as (p & _ & ->).
  exists 41, 42, 43, 47, 48, 49, 9, 11, 12, 44, 45, 0.
  rewrite completed_evaluated. destruct p.
  vm_compute. repeat split; reflexivity.
Qed.

Lemma X9_snapshots_witness :
  main (python_raises never) ini0 initial = (completed params0, inr tt)
  ∧ ∃ dDisk,
      files (completed params0) !! "dens_disk_iter5" = Some (Exported dDisk)
      ∧ files (completed params0) !! "dens_disk_final"
        = Some (Snapshot (VCall "sample" [VObj dDisk; VInt 160000]) "text").
Proof.
  split; [run_completes|].
  destruct (X9_snapshots (python_raises never) ini0 (completed params0))
    as (dDisk & ? & ? & ? & ? & ? & ? & ? & ? & ? & ? & ? & H1 & _ & _ & H2 & _);
    [run_completes|].
  exists dDisk. split; [exact H1|exact H2].
Defined.

(** X16. With [iterate] as modelled from its contract: in a completed run
    each of the seven potentials is solved from three contributions handed to
    the solver in the order disk, bulge, halo: the static densities of the
    groups [Potential disk], [Potential bulge] and [Potential halo] for the
    bootstrap potential, densities integrated from the three DFs for the six
    others. *)
Theorem X16_solve_order raises ini s' :
  main raises ini initial = (s', inr tt) →
  ∃ p densityDisk densityBulge densityHalo dfDisk dfBulge dfHalo,
    reads ini p
    ∧ heap s' !! densityDisk = Some (ODensity (DensityParams (iniPotenDisk p)))
    ∧ heap s' !! densityBulge = Some (ODensity (DensityParams (iniPotenBulge p)))
    ∧ heap s' !! densityHalo = Some (ODensity (DensityParams (iniPotenHalo p)))
    ∧ map fst (constructed_dfs (trace s')) = [dfDisk; dfBulge; dfHalo]
    ∧ solved_from s' =
        [Some (inl densityDisk); Some (inl densityBulge); Some (inl densityHalo)]
          :: replicate 6 [Some (inr dfDisk); Some (inr dfBulge); Some (inr dfHalo)].
Proof.
  intros H. destruct (main_completes _ _ _ H) as (p & Hr & ->).
  exists p, 1, 2, 3, 9, 11, 12. split; [exact Hr|]. clear.
  rewrite completed_evaluated. destruct p.
  vm_compute. repeat split; reflexivity.
Qed.

Lemma X16_solve_order_witness :
  main (python_raises never) ini0 initial = (completed params0, inr tt)
  ∧ length (solved_from (completed params0)) = 7.
Proof.
  split; [run_completes|].
  destruct (X16_solve_order (python_raises never) ini0 (completed params0))
    as (p & d1 & d2 & d3 & f1 & f2 & f3 & _ & _ & _ & _ & _ & Hs); [run_completes|].
  by rewrite Hs.
Defined.

(** ** Failures decided by the configuration *)

Lemma equal_refl {A} (m : M A) : equal m m.
Proof. by intros s. Qed.

Lemma equal_bind {A B} (m1 m2 : M A) (k1 k2 : A → M B) :
  equal m1 m2 → (∀ a, equal (k1 a) (k2 a)) → equal (m1 ≫= k1) (m2 ≫= k2).
Proof.
  intros Hm Hk s. unfold mbind, M_bind, bind. rewrite Hm.
  destruct (m2 s) as [s1 [e|a]]; [done|apply Hk].
Qed.

Lemma equal_for_in {A} (xs : list A) (b1 b2 : A → M unit) :
  (∀ x, equal (b1 x) (b2 x)) → equal (for_in xs b1) (for_in xs b2).
Proof.
  intros Hb. induction xs as [|x xs IH]; simpl.
  - apply equal_refl.
  - apply equal_bind; [apply Hb|intros _; apply IH].
Qed.

Lemma equal_attempt P r1 r2 c e :
  same_on P r1 r2 → P c → equal (attempt r1 c e) (attempt r2 c e).
Proof. intros Hs Hc s. unfold attempt. by rewrite (Hs s c Hc). Qed.

Ltac equal_step :=
  lazymatch goal with
  | |- equal _ _ =>
      first
        [ apply equal_refl
        | match goal with H : context [equal] |- _ => apply H end
        | eapply equal_attempt; [eassumption|]
        | apply equal_bind
        | apply equal_for_in
        | match goal with
          | |- equal (match ?x with _ => _ end) _ => destruct x
          | |- equal (if ?x then _ else _) _ => destruct x
          end ]
  | |- ∀ _, _ => intros ?
  | |- configured_call _ _ => by (simpl; eauto)
  end.

Ltac equal_tac := repeat equal_step.

Section Equal.
Variables (p : parameters) (r1 r2 : state → call → bool).
Hypothesis Hsame : same_on (configured_call p) r1 r2.

Lemma equal_invoke f args : equal (invoke r1 f args) (invoke r2 f args).
Proof. unfold invoke. equal_tac. Qed.

Lemma equal_export o f : equal (export r1 o f) (export r2 o f).
Proof. unfold export. equal_tac. Qed.

Lemma equal_savetxt f d fmt h :
  equal (numpy_savetxt r1 f d fmt h) (numpy_savetxt r2 f d fmt h).
Proof. unfold numpy_savetxt. equal_tac. Qed.

Lemma equal_writeSnapshot f d fmt :
  equal (agama_writeSnapshot r1 f d fmt) (agama_writeSnapshot r2 f d fmt).
Proof. unfold agama_writeSnapshot. equal_tac. Qed.

Lemma equal_density_contribution kw pot c :
  equal (density_contribution r1 kw pot c) (density_contribution r2 kw pot c).
Proof. unfold density_contribution, new. equal_tac. Qed.

Lemma equal_contributions kw pot cs :
  equal (contributions r1 kw pot cs) (contributions r2 kw pot cs).
Proof.
  induction cs as [|c cs IH]; simpl; pose proof equal_density_contribution; equal_tac.
Qed.

Lemma equal_publish m ds : equal (publish r1 m ds) (publish r2 m ds).
Proof. unfold publish, new. equal_tac. Qed.

Lemma equal_iterate m : equal (iterate r1 m) (iterate r2 m).
Proof.
  unfold iterate. pose proof equal_contributions. pose proof equal_publish. equal_tac.
Qed.

Lemma equal_writeRotationCurve f q :
  equal (writeRotationCurve r1 f q) (writeRotationCurve r2 f q).
Proof.
  unfold writeRotationCurve.
  pose proof equal_export. pose proof equal_invoke. pose proof equal_savetxt. equal_tac.
Qed.

Lemma equal_printoutInfo m i : equal (printoutInfo r1 m i) (printoutInfo r2 m i).
Proof.
  unfold printoutInfo.
  pose proof equal_export. pose proof equal_invoke.
  pose proof equal_writeRotationCurve. equal_tac.
Qed.

Lemma equal_main : equal (main r1 (parsed p)) (main r2 (parsed p)).
Proof.
  intros s. unfold main.
  rewrite !(bind_items_some _ "Potential halo" (iniPotenHalo p)) by reflexivity.
  rewrite !(bind_items_some _ "Potential bulge" (iniPotenBulge p)) by reflexivity.
  rewrite !(bind_items_some _ "Potential disk" (iniPotenDisk p)) by reflexivity.
  rewrite !(bind_items_some _ "DF disk" (iniDFDisk p)) by reflexivity.
  rewrite !(bind_items_some _ "SelfConsistentModel halo" (iniSCMHalo p)) by reflexivity.
  rewrite !(bind_items_some _ "SelfConsistentModel bulge" (iniSCMBulge p)) by reflexivity.
  rewrite !(bind_items_some _ "SelfConsistentModel disk" (iniSCMDisk p)) by reflexivity.
  rewrite !(bind_items_some _ "SelfConsistentModel" (iniSCM p)) by reflexivity.
  revert s.
  match goal with |- ∀ s, ?a s = ?b s => change (equal a b) end.
  unfold float_item, getitem, agama_SelfConsistentModel, agama_Density, agama_Component,
    agama_Component_df, agama_DistributionFunction,
    agama_DistributionFunction_PseudoIsotropic, agama_Potential_Multipole,
    agama_GalaxyModel, new.
  pose proof equal_invoke. pose proof equal_iterate. pose proof equal_printoutInfo.
  pose proof equal_writeRotationCurve. pose proof equal_savetxt.
  pose proof equal_writeSnapshot.
  equal_tac.
Qed.

End Equal.

Lemma python_decided p potential disk spheroid radius height :
  has_key (iniDFDisk p) "potential" = potential →
  repeats_component_keyword (iniSCMDisk p) = disk →
  (∀ b, spheroid = Some b →
        repeats_component_keyword (iniSCMBulge p) = b
        ∧ repeats_component_keyword (iniSCMHalo p) = b) →
  negb (has_key (iniPotenDisk p) "scaleradius") = radius →
  negb (has_key (iniPotenDisk p) "scaleheight") = height →
  same_on (configured_call p) (python_raises never)
          (decided potential disk spheroid radius height).
Proof.
  intros Hp Hd Hs Hr Hh s c Hc.
  destruct c as [o|d k|f args]; simpl in *.
  - destruct o as [| |[q kw|]|[dens [f|] [] kw]| | |]; simpl in *; subst;
      rewrite ?orb_false_r; try done.
    destruct spheroid as [b|]; simpl; [|done].
    destruct (Hs b eq_refl) as [Hb1 Hb2]. by destruct Hc as [->| ->].
  - destruct Hc as [-> [->| ->]]; by subst.
  - done.
Qed.



(** X11. When the group [DF disk] has a key [potential], the keyword is
    given twice at line 82: with no collaborator failure the driver stops
    there, after the bootstrap iteration and the initial rotation curve, with
    no DF constructed and [rotcurve_init] the only file. *)
Theorem X11_repeated_potential p :
  has_key (iniDFDisk p) "potential" = true →
  ∃ s' pot,
    main (python_raises never) (parsed p) initial
    = (s', inl (Raised (Construct (ODF (DFParams pot (iniDFDisk p))))))
    ∧ published (trace s') = [pot]
    ∧ steps (trace s') = [Append; Append; Append; IterateCall; IterateReturn]
    ∧ constructed_dfs (trace s') = []
    ∧ size (files s') = 1
    ∧ files s' !! "rotcurve_init" = Some (rotation_curve pot).
Proof.
  destruct p as [d1 d2 d3 d4 d5 d6 d7 d8].
  set (p := Parameters d1 d2 d3 d4 d5 d6 d7 d8).
  intros H. eexists _, 7. split.
  - rewrite (equal_main p _ _
      (python_decided p true _ None _ _ H eq_refl ltac:(done) eq_refl eq_refl)).
    generalize (repeats_component_keyword (iniSCMDisk p)).
    generalize (negb (has_key (iniPotenDisk p) "scaleradius")).
    generalize (negb (has_key (iniPotenDisk p) "scaleheight")).
    intros bh br bd. vm_compute. reflexivity.
  - vm_compute. done.
Qed.

Lemma X11_repeated_potential_witness :
  has_key (iniDFDisk params_repeated_potential) "potential" = true
  ∧ ∃ s' e,
      main (python_raises never) (parsed params_repeated_potential) initial
      = (s', inl e)
      ∧ constructed_dfs (trace s') = [].
Proof.
  split; [vm_compute; reflexivity|].
  destruct (X11_repeated_potential params_repeated_potential)
    as (s' & pot & Hrun & _ & _ & Hc & _); [vm_compute; reflexivity|].
  exists s', (Raised (Construct (ODF (DFParams pot (iniDFDisk params_repeated_potential))))).
  split; [exact Hrun|exact Hc].
Defined.

(** X12. When the group [SelfConsistentModel disk] has a key [df] or
    [disklike] (and [DF disk] no key [potential]), the keyword is given twice
    at line 96: with no collaborator failure the driver stops there, after
    the three DFs were constructed and the first diagnostic printout, with
    no slot assigned and the three components still static. *)
Theorem X12_repeated_component_keyword p :
  has_key (iniDFDisk p) "potential" = false →
  repeats_component_keyword (iniSCMDisk p) = true →
  ∃ s' model dfDisk,
    main (python_raises never) (parsed p) initial
    = (s', inl (Raised (Construct
                  (OComponent (Component None (Some dfDisk) true (iniSCMDisk p))))))
    ∧ steps (trace s') =
        [Append; Append; Append; IterateCall; IterateReturn; Printout 0]
    ∧ map fst (constructed_dfs (trace s')) !! 0 = Some dfDisk
    ∧ length (constructed_dfs (trace s')) = 3
    ∧ (map representation_of ∘ map snd ∘ seen s' ∘ components) <$> model_of s' model
      = Some [StaticDensity; StaticDensity; StaticDensity]
    ∧ size (files s') = 5.
Proof.
  destruct p as [d1 d2 d3 d4 d5 d6 d7 d8].
  set (p := Parameters d1 d2 d3 d4 d5 d6 d7 d8).
  intros Hp H. eexists _, 0, 9. split.
  - rewrite (equal_main p _ _
      (python_decided p false true None _ _ Hp H ltac:(done) eq_refl eq_refl)).
    generalize (negb (has_key (iniPotenDisk p) "scaleradius")).
    generalize (negb (has_key (iniPotenDisk p) "scaleheight")).
    intros bh br. vm_compute. reflexivity.
  - vm_compute. done.
Qed.

Lemma X12_repeated_component_keyword_witness :
  has_key (iniDFDisk params_repeated_disklike) "potential" = false
  ∧ repeats_component_keyword (iniSCMDisk params_repeated_disklike) = true
  ∧ ∃ s' e,
      main (python_raises never) (parsed params_repeated_disklike) initial
      = (s', inl e)
      ∧ size (files s') = 5.
Proof.
  split; [vm_compute; reflexivity|]. split; [vm_compute; reflexivity|].
  destruct (X12_repeated_component_keyword params_repeated_disklike)
    as (s' & model & dfDisk & Hrun & _ & _ & _ & _ & Hs);
    [vm_compute; reflexivity|vm_compute; reflexivity|].
  eexists s', _. split; [exact Hrun|exact Hs].
Defined.



(** ** What the driver never writes *)

Lemma always_for_in_elem R `{!Stable R} {A} (xs : list A) (body : A → M unit) :
  (∀ x, x ∈ xs → always R (body x)) → always R (for_in xs body).
Proof.
  intros Hb. induction xs as [|x xs IH]; simpl.
  - apply (always_ret R tt).
  - apply always_bind; [tc_solve|apply Hb; left|intros _; apply IH].
    intros y Hy. apply Hb. by right.
Qed.

Ltac outside_tac := repeat always_step ltac:(done).

Section Outside.
Variable raises : state → call → bool.
Variable F : list string.

#[global] Instance outside_stable : Stable (outside F).
Proof.
  split.
  - done.
  - intros s1 s2 s3 G1 G2 g Hg. rewrite G2, G1; done.
Qed.

Lemma outside_alloc o : always (outside F) (alloc o).
Proof. by intros s s' r [= <- _]. Qed.

Lemma outside_store o x : always (outside F) (store o x).
Proof. by intros s s' r [= <- _]. Qed.

Lemma outside_write f c : f ∈ F → always (outside F) (write f c).
Proof.
  intros Hf s s' r [= <- _] g Hg. simpl.
  apply lookup_insert_ne. intros ->. done.
Qed.

Lemma outside_only_files {A} G (m : M A) :
  G ⊆ F → always (only_files G) m → always (outside F) m.
Proof.
  intros HG Hm s s' r H g Hg. destruct (Hm s s' r H) as [_ Hf].
  apply Hf. intros Hin. apply Hg, HG, Hin.
Qed.

Lemma outside_new o : always (outside F) (new raises o).
Proof. unfold new. pose proof outside_alloc. outside_tac. Qed.

Lemma outside_invoke f args : always (outside F) (invoke raises f args).
Proof. unfold invoke. outside_tac. Qed.

Lemma outside_components_append m c : always (outside F) (components_append m c).
Proof. unfold components_append, load_model. pose proof outside_store. outside_tac. Qed.

Lemma outside_components_set m i c : always (outside F) (components_set m i c).
Proof. unfold components_set, load_model. pose proof outside_store. outside_tac. Qed.

Lemma outside_density_contribution kw pot c :
  always (outside F) (density_contribution raises kw pot c).
Proof.
  unfold density_contribution, load_component.
  pose proof outside_store. pose proof outside_new. outside_tac.
Qed.

Lemma outside_contributions kw pot cs :
  always (outside F) (contributions raises kw pot cs).
Proof.
  induction cs as [|c cs IH]; simpl; pose proof outside_density_contribution;
    outside_tac.
Qed.

Lemma outside_publish m ds : always (outside F) (publish raises m ds).
Proof.
  unfold publish, load_model.
  pose proof outside_store. pose proof outside_new. pose proof outside_alloc.
  outside_tac.
Qed.

Lemma outside_iterate m : always (outside F) (iterate raises m).
Proof.
  unfold iterate, load_model.
  pose proof outside_contributions. pose proof outside_publish. outside_tac.
Qed.

Lemma outside_savetxt f d fmt h :
  f ∈ F → always (outside F) (numpy_savetxt raises f d fmt h).
Proof.
  intros Hf. unfold numpy_savetxt. pose proof (outside_write f (Table d fmt h) Hf).
  outside_tac.
Qed.

Lemma outside_writeSnapshot f d fmt :
  f ∈ F → always (outside F) (agama_writeSnapshot raises f d fmt).
Proof.
  intros Hf. unfold agama_writeSnapshot.
  pose proof (outside_write f (Snapshot d fmt) Hf). outside_tac.
Qed.

Lemma outside_components_get m i : always (outside F) (components_get m i).
Proof. unfold components_get, load_model. outside_tac. Qed.

Lemma outside_getDensity c : always (outside F) (getDensity c).
Proof. unfold getDensity, load_component. outside_tac. Qed.

Lemma outside_model_potential m : always (outside F) (model_potential m).
Proof. unfold model_potential, load_model. outside_tac. Qed.

Lemma outside_model_af m : always (outside F) (model_af m).
Proof. unfold model_af, load_model. outside_tac. Qed.

Lemma outside_float_item d k : always (outside F) (float_item raises d k).
Proof. unfold float_item, getitem. pose proof outside_invoke. outside_tac. Qed.

Lemma outside_print vs : always (outside F) (print vs).
Proof. unfold print. outside_tac. Qed.

Lemma outside_printoutInfo m i :
  printout_files i ⊆ F → always (outside F) (printoutInfo raises m i).
Proof. intros Hi. eapply outside_only_files; [exact Hi|apply only_files_printoutInfo]. Qed.

Lemma outside_writeRotationCurve f pot :
  f ∈ F → always (outside F) (writeRotationCurve raises f pot).
Proof.
  intros Hf. eapply outside_only_files; [|apply only_files_writeRotationCurve].
  set_solver.
Qed.

End Outside.

Lemma printout_files_output i : i < 6 → printout_files i ⊆ output_files.
Proof.
  intros Hi.
  do 6 (destruct i as [|i]; [apply (bool_decide_unpack _); vm_compute; reflexivity|]).
  lia.
Qed.

(** One step through the script: the head of the program decides the lemma. *)
Ltac outside_step :=
  lazymatch goal with
  | |- Stable _ => tc_solve
  | |- ∀ _, _ => intros ?
  | |- _ ∈ output_files => apply (bool_decide_unpack _); vm_compute; reflexivity
  | |- always _ (let _ := _ in _) => cbv zeta
  | |- always _ (_ ≫= _) => apply always_bind
  | |- always _ (items _ _) => apply always_items
  | |- always _ (new _ _) => apply outside_new
  | |- always _ (invoke _ _ _) => apply outside_invoke
  | |- always _ (float_item _ _ _) => apply outside_float_item
  | |- always _ (components_append _ _) => apply outside_components_append
  | |- always _ (components_set _ _ _) => apply outside_components_set
  | |- always _ (components_get _ _) => apply outside_components_get
  | |- always _ (getDensity _) => apply outside_getDensity
  | |- always _ (model_potential _) => apply outside_model_potential
  | |- always _ (model_af _) => apply outside_model_af
  | |- always _ (iterate _ _) => apply outside_iterate
  | |- always _ (print _) => apply outside_print
  | |- always _ (writeRotationCurve _ _ _) => apply outside_writeRotationCurve
  | |- always _ (numpy_savetxt _ _ _ _ _) => apply outside_savetxt
  | |- always _ (agama_writeSnapshot _ _ _ _) => apply outside_writeSnapshot
  | |- always _ (printoutInfo _ _ _) =>
      apply outside_printoutInfo; apply printout_files_output;
      first [lia | match goal with H : _ ∈ range 6 |- _ =>
                     apply elem_of_seq in H; lia end]
  | |- always _ (for_in (range 6) _) =>
      apply always_for_in_elem; [tc_solve|]; intros ? ?; cbv beta
  end.

(** X14. Whatever the configuration, whichever calls raise and whether the
    script completes or stops with an error, it changes no file other than
    the 32 output files. *)
Theorem X14_main_writes_only_outputs raises ini s s' r g :
  main raises ini s = (s', r) →
  g ∉ output_files →
  files s' !! g = files s !! g.
Proof.
  intros H Hg. revert g Hg.
  change (outside output_files s s'). revert s s' r H.
  change (always (outside output_files) (main raises ini)).
  unfold main, agama_SelfConsistentModel, agama_Density,
    agama_Component, agama_Component_df, agama_DistributionFunction,
    agama_DistributionFunction_PseudoIsotropic, agama_Potential_Multipole,
    agama_GalaxyModel.
  repeat outside_step.
Qed.

Lemma X14_main_writes_only_outputs_witness :
("SCM3.ini" ∉ output_files)
  ∧ files (fst (main force_down ini0 bootstrapped)) !! "SCM3.ini"
    = files bootstrapped !! "SCM3.ini".
Proof.
  assert (Hg : "SCM3.ini" ∉ output_files).
  { apply (bool_decide_unpack _). vm_compute. reflexivity. }
  split; [exact Hg|].
  destruct (main force_down ini0 bootstrapped) as [s' r] eqn:E.
  exact (X14_main_writes_only_outputs force_down ini0 bootstrapped s' r "SCM3.ini" E Hg).
Defined.

(** ** Where a failure can come from *)

Lemma refines_refl {A} (m : M A) : refines m m.
Proof. intros s s' r H. by left. Qed.

Lemma refines_bind {A B} (m1 m2 : M A) (k1 k2 : A → M B) :
  refines m1 m2 → (∀ a, refines (k1 a) (k2 a)) → refines (m1 ≫= k1) (m2 ≫= k2).
Proof.
  intros Hm Hk s s' r. unfold mbind, M_bind, bind.
  destruct (m1 s) as [s1 [e|a]] eqn:E1.
  - intros [= <- <-]. destruct (Hm _ _ _ E1) as [->|(e0 & [= <-] & He)]; [by left|right; eauto].
  - destruct (Hm _ _ _ E1) as [->|(e & [=] & _)]. apply Hk.
Qed.

Lemma refines_for_in {A} (xs : list A) (b1 b2 : A → M unit) :
  (∀ x, refines (b1 x) (b2 x)) → refines (for_in xs b1) (for_in xs b2).
Proof.
  intros Hb. induction xs as [|x xs IH]; simpl.
  - apply refines_refl.
  - apply refines_bind; [apply Hb|intros _; apply IH].
Qed.

Lemma refines_attempt raises c e :
  from_call e = true → refines (attempt raises c e) (attempt never c e).
Proof.
  intros He s s' r. unfold attempt, never.
  destruct (raises s c); intros [= <- <-]; [right; eauto|by left].
Qed.

Ltac refines_step :=
  lazymatch goal with
  | |- ∀ _, _ => intros ?
  | |- from_call _ = true => reflexivity
  | |- refines (let _ := _ in _) _ => cbv zeta
  | |- refines (_ ≫= _) (_ ≫= _) => apply refines_bind
  | |- refines (attempt _ _ _) _ => apply refines_attempt
  | |- refines (for_in _ _) _ => apply refines_for_in
  | |- refines (match ?x with _ => _ end) _ => destruct x
  | |- refines _ _ =>
      first [ match goal with H : context [refines] |- _ => apply H end
            | apply refines_refl ]
  end.

Ltac refines_tac := repeat refines_step.

Section Refines.
Variable raises : state → call → bool.

Lemma refines_new o : refines (new raises o) (new never o).
Proof. unfold new. refines_tac. Qed.

Lemma refines_invoke f args : refines (invoke raises f args) (invoke never f args).
Proof. unfold invoke. refines_tac. Qed.

Lemma refines_float_item d k : refines (float_item raises d k) (float_item never d k).
Proof. unfold float_item, getitem. pose proof refines_invoke. refines_tac. Qed.

Lemma refines_export o f : refines (export raises o f) (export never o f).
Proof. unfold export. refines_tac. Qed.

Lemma refines_savetxt f d fmt h :
  refines (numpy_savetxt raises f d fmt h) (numpy_savetxt never f d fmt h).
Proof. unfold numpy_savetxt. refines_tac. Qed.

Lemma refines_writeSnapshot f d fmt :
  refines (agama_writeSnapshot raises f d fmt) (agama_writeSnapshot never f d fmt).
Proof. unfold agama_writeSnapshot. refines_tac. Qed.

Lemma refines_density_contribution kw pot c :
  refines (density_contribution raises kw pot c) (density_contribution never kw pot c).
Proof. unfold density_contribution. pose proof refines_new. refines_tac. Qed.

Lemma refines_contributions kw pot cs :
  refines (contributions raises kw pot cs) (contributions never kw pot cs).
Proof.
  induction cs as [|c cs IH]; simpl; pose proof refines_density_contribution;
    refines_tac.
Qed.

Lemma refines_publish m ds : refines (publish raises m ds) (publish never m ds).
Proof. unfold publish. pose proof refines_new. refines_tac. Qed.

Lemma refines_iterate m : refines (iterate raises m) (iterate never m).
Proof.
  unfold iterate. pose proof refines_contributions. pose proof refines_publish.
  refines_tac.
Qed.

Lemma refines_writeRotationCurve f p :
  refines (writeRotationCurve raises f p) (writeRotationCurve never f p).
Proof.
  unfold writeRotationCurve.
  pose proof refines_export. pose proof refines_invoke. pose proof refines_savetxt.
  refines_tac.
Qed.

Lemma refines_printoutInfo m i :
  refines (printoutInfo raises m i) (printoutInfo never m i).
Proof.
  unfold printoutInfo.
  pose proof refines_export. pose proof refines_invoke.
  pose proof refines_writeRotationCurve. refines_tac.
Qed.

End Refines.

(** One step through the script: the head of the program decides the lemma. *)
Ltac refines_main_step :=
  lazymatch goal with
  | |- ∀ _, _ => intros ?
  | |- refines (let _ := _ in _) _ => cbv zeta
  | |- refines (_ ≫= _) (_ ≫= _) => apply refines_bind
  | |- refines (new _ _) _ => apply refines_new
  | |- refines (invoke _ _ _) _ => apply refines_invoke
  | |- refines (float_item _ _ _) _ => apply refines_float_item
  | |- refines (iterate _ _) _ => apply refines_iterate
  | |- refines (writeRotationCurve _ _ _) _ => apply refines_writeRotationCurve
  | |- refines (printoutInfo _ _ _) _ => apply refines_printoutInfo
  | |- refines (numpy_savetxt _ _ _ _ _) _ => apply refines_savetxt
  | |- refines (agama_writeSnapshot _ _ _ _) _ => apply refines_writeSnapshot
  | |- refines (for_in _ _) _ => apply refines_for_in
  | |- refines (items _ _) _ => apply refines_refl
  | |- refines (components_append _ _) _ => apply refines_refl
  | |- refines (components_set _ _ _) _ => apply refines_refl
  | |- refines (components_get _ _) _ => apply refines_refl
  | |- refines (getDensity _) _ => apply refines_refl
  | |- refines (model_potential _) _ => apply refines_refl
  | |- refines (model_af _) _ => apply refines_refl
  | |- refines (print _) _ => apply refines_refl
  end.

Lemma refines_main raises ini : refines (main raises ini) (main never ini).
Proof.
  unfold main, agama_SelfConsistentModel, agama_Density,
    agama_Component, agama_Component_df, agama_DistributionFunction,
    agama_DistributionFunction_PseudoIsotropic, agama_Potential_Multipole,
    agama_GalaxyModel.
  repeat refines_main_step.
Qed.

Lemma main_never_completes p :
  main never (parsed p) initial = (completed p, inr tt).
Proof. apply returns_completed. destruct p. vm_compute. reflexivity. Qed.

(** X15. A run from the initial state fails only for a missing group,
    before anything is done, or because a call raised: the script's own uses
    of [model.components[i]], [getDensity()], [model.potential] and
    [model.af] never fail. *)
Theorem X15_failures_are_raised raises ini s' e :
  main raises ini initial = (s', inl e) →
  (∃ k, first_missing ini sections = Some k ∧ e = NoSectionError k ∧ s' = initial)
  ∨ (first_missing ini sections = None ∧ from_call e = true).
Proof.
  intros H. destruct (first_missing ini sections) as [k|] eqn:Hm.
  - left. rewrite (main_without_section _ _ _ _ Hm) in H.
    injection H as <- <-. eauto.
  - right. split; [done|].
    destruct (main_with_sections never ini Hm) as (p & _ & Hp).
    destruct (refines_main raises ini _ _ _ H) as [Hn|(e' & [= <-] & He)]; [|done].
    rewrite Hp, main_never_completes in Hn.
    set (c := completed p) in Hn. clearbody c. discriminate Hn.
Qed.

Lemma X15_failures_are_raised_witness :
  ∃ s' e, main force_down ini0 initial = (s', inl e) ∧ from_call e = true.
Proof.
  destruct (main force_down ini0 initial) as [s' [e|[]]] eqn:E.
  - exists s', e. split; [reflexivity|].
    destruct (X15_failures_are_raised force_down ini0 s' e E) as [(k & Hk & _)|[_ He]];
      [|exact He].
    vm_compute in Hk. discriminate Hk.
  - apply (f_equal snd) in E. vm_compute in E. discriminate E.
Defined.
